(** * peft-llm-code: the evaluation scripts, embedded and verified

    A shallow embedding of the logic of [src/test.py], [src/generate.py] and
    [src/utils.py].  Python [str] values are [string]s (their UTF-8 bytes:
    substring search gives the same answer on bytes and on code points),
    Python lists are [list]s, dictionaries with string keys are [gmap]s or,
    where the order of the keys is visible, association lists.  Exceptions
    are the [Raise] results of a small error monad.  What the scripts call
    in other libraries (the tokenizer, the vector store, the metrics, the
    JSON encoder) is the field of a record, as it is the method of an object
    in the source. *)

From Stdlib Require Import ZArith Ascii String List Lia Bool.
From Stdlib Require Import DecimalString.
From stdpp Require Import gmap strings list fin_maps.

Set Warnings "-register-all".

Local Open Scope Z_scope.

(** ** Python built-ins the scripts use *)

Module Py.

(** The character written [\n] in the Python sources. *)
Definition newline : ascii := "010"%char.

(** [s.startswith(p)]. *)
Fixpoint startswith (p s : string) : bool :=
  match p with
  | EmptyString => true
  | String a p' =>
      match s with
      | EmptyString => false
      | String b s' => if Ascii.eqb a b then startswith p' s' else false
      end
  end.

(** [sub in s] on strings: [sub] occurs at some position of [s]. *)
Fixpoint str_in (sub s : string) : bool :=
  startswith sub s ||
  match s with
  | EmptyString => false
  | String _ s' => str_in sub s'
  end.

(** What [sub in s] decides: [sub] occurs in [s]. *)
Definition contains (sub s : string) : Prop :=
  exists pre post, s = pre +:+ sub +:+ post.

(** [s[n:]] on strings, for [n >= 0]. *)
Fixpoint str_drop (n : nat) (s : string) : string :=
  match n, s with
  | S n', String _ s' => str_drop n' s'
  | _, _ => s
  end.

(** [sep.join(l)] with the empty string for [sep]: the pieces glued
    together. *)
Definition join (l : list string) : string :=
  foldr String.append EmptyString l.

(** [l[start:]] for a Python integer [start]: a negative [start] counts
    from the end, and is clipped at the beginning of the list. *)
Definition slice_from {A} (start : Z) (l : list A) : list A :=
  if start <? 0
  then drop (Z.to_nat (Z.of_nat (length l) + start)) l
  else drop (Z.to_nat start) l.

(** [l[:-k]] for [k > 0]: all but the last [k] elements, nothing when the
    list has fewer than [k]. *)
Definition drop_last {A} (k : nat) (l : list A) : list A :=
  take (length l - k)%nat l.

(** [any(l)] and [all(l)] on lists of booleans. *)
Definition any (l : list bool) : bool := existsb id l.
Definition all (l : list bool) : bool := forallb id l.

(** [str(n)] for an integer. *)
Definition str_int (n : Z) : string := NilZero.string_of_int (Z.to_int n).

(** The exceptions the modelled code can raise. *)
Inductive exn : Type :=
| KeyError (key : string)
| AttributeError
| IndexError
| TypeError
| ValueError
| JSONDecodeError.

Inductive result (A : Type) : Type :=
| Ok (a : A)
| Raise (e : exn).
Arguments Ok {A} a.
Arguments Raise {A} e.

Definition bind {A B} (m : result A) (k : A -> result B) : result B :=
  match m with
  | Ok a => k a
  | Raise e => Raise e
  end.

(** A loop whose body can raise: the first exception ends it. *)
Fixpoint for_each {A B} (f : A -> result B) (l : list A) : result (list B) :=
  match l with
  | [] => Ok []
  | x :: l' =>
      bind (f x) (fun y => bind (for_each f l') (fun ys => Ok (y :: ys)))
  end.

(** [d[key]] on a dictionary with string keys. *)
Definition getitem {V} (d : gmap string V) (key : string) : result V :=
  match d !! key with
  | Some v => Ok v
  | None => Raise (KeyError key)
  end.

(** [del d[key]] on a dictionary with string keys. *)
Definition delitem {V} (d : gmap string V) (key : string)
  : result (gmap string V) :=
  match d !! key with
  | Some _ => Ok (delete key d)
  | None => Raise (KeyError key)
  end.

(** [s.replace(old, new)] when [old] and [new] are one character each. *)
Fixpoint replace_char (old new : ascii) (s : string) : string :=
  match s with
  | EmptyString => EmptyString
  | String c s' =>
      String (if Ascii.eqb c old then new else c) (replace_char old new s')
  end.

End Py.

Notation "'letM' x := m 'in' k" := (Py.bind m (fun x => k))
  (at level 10, x name, m at level 200, k at level 200).

(** ** [re.split] with a pattern [(m1|m2|...)] of literal alternatives *)

Module Re.

(** The alternation at the head of [s]: the alternatives are tried in the
    order they are written and the first one that matches is the match. *)
Fixpoint match_alt (alts : list string) (s : string) : option string :=
  match alts with
  | [] => None
  | m :: alts' => if Py.startswith m s then Some m else match_alt alts' s
  end.

(** The scan of [re.split]: the leftmost match is looked for from the
    current position; the text before it and, the pattern being one
    capture group, the matched text are emitted, and the scan goes on
    after the match.  [skip] counts the characters of the last match that
    are still to be passed over, [seg] is the text since the last match.
    The alternatives are not empty (none of the scripts' markers is). *)
Fixpoint split_scan (alts : list string) (skip : nat) (seg s : string)
  : list string :=
  match s with
  | EmptyString => [seg]
  | String c s' =>
      match skip with
      | S k => split_scan alts k seg s'
      | O =>
          match match_alt alts s with
          | Some m =>
              seg :: m :: split_scan alts (String.length m - 1)%nat EmptyString s'
          | None => split_scan alts 0 (seg +:+ String c EmptyString) s'
          end
      end
  end.

Definition split (alts : list string) (s : string) : list string :=
  split_scan alts 0 EmptyString s.

(** Some alternative occurs in [s]. *)
Definition occurs (alts : list string) (s : string) : bool :=
  existsb (fun m => Py.str_in m s) alts.

(** The shape of the scripts' markers: a newline, then text without one. *)
Definition marker_shape (m : string) : Prop :=
  exists t, m = String Py.newline t /\
            Py.str_in (String Py.newline EmptyString) t = false.

End Re.

(** ** [src/test.py] *)

Module Test.

(** The tokenizer of the [transformers] library: [decode] turns token ids
    into text, [batch_decode] does so for every row of a batch. *)
Record Tokenizer : Type := { decode : list Z -> string }.

Definition batch_decode (tk : Tokenizer) (rows : list (list Z)) : list string :=
  map (decode tk) rows.

Definition EOF_STRINGS : list string := ["<|endoftext|>"; "</s>"].

(** [class EndOfFunctionCriteria]: the attributes [__init__] stores. *)
Record EndOfFunctionCriteria : Type := {
  start_length : Z;
  eof_strings : list string;
  tokenizer : Tokenizer
}.

(** [EndOfFunctionCriteria.__call__(input_ids, scores)]; [input_ids] is
    the batch, one row of token ids per sequence, and [scores] is not
    read. *)
Definition call (self : EndOfFunctionCriteria) (input_ids : list (list Z)) : bool :=
  let decoded_generations :=
    batch_decode (tokenizer self)
      (map (Py.slice_from (start_length self)) input_ids) in
  let done :=
    map (fun decoded_generation =>
           Py.any (map (fun stop_string => Py.str_in stop_string decoded_generation)
                     (eof_strings self)))
        decoded_generations in
  Py.all done.

Definition HUMAN_EVAL_EOF_STRINGS : list string :=
  [ String Py.newline "class"; String Py.newline "def";
    String Py.newline "#"; String Py.newline "@";
    String Py.newline "print"; String Py.newline "if" ].

(** [remove_last_block(string)]; the [print] of the pieces is left out. *)
Definition remove_last_block (s : string) : string :=
  let string_list := Re.split HUMAN_EVAL_EOF_STRINGS s in
  Py.join (Py.drop_last 2 string_list).

(** The special token ids of a tokenizer or of a model configuration;
    [None] is Python's [None]. *)
Record TokenIds : Type := {
  pad_token_id : option Z;
  eos_token_id : option Z
}.

(** [load_model_and_tokenizer], lines 34 to 36, on the ids of the tokenizer
    and of [model.config]. *)
Definition default_pad_token (tok config : TokenIds) : TokenIds * TokenIds :=
  match pad_token_id tok with
  | None =>
      ({| pad_token_id := eos_token_id tok; eos_token_id := eos_token_id tok |},
       {| pad_token_id := eos_token_id config;
          eos_token_id := eos_token_id config |})
  | Some _ => (tok, config)
  end.

(** Lines 38 to 40. *)
Definition incoder_tokens (model_name : string) (tok : TokenIds) : TokenIds :=
  if Py.str_in "incoder" model_name
  then {| pad_token_id := Some 1; eos_token_id := Some 2 |}
  else tok.

(** The ids [load_model_and_tokenizer] returns the tokenizer and the model
    with, from the ids they were loaded with. *)
Definition special_tokens (model_name : string) (tok config : TokenIds)
  : TokenIds * TokenIds :=
  let ids := default_pad_token tok config in
  (incoder_tokens model_name (fst ids), snd ids).

(** [test_conala_code_generation], lines 143 and 144. *)
Definition export_dir (training_method run_dir lora_adapter_path : string)
  : string :=
  if String.eqb training_method "lora" then lora_adapter_path else run_dir.

(** The line written for a prediction or a reference, lines 149 and 150. *)
Definition text_line (text : string) : string :=
  Py.replace_char Py.newline " " text +:+ String Py.newline EmptyString.

(** Lines 146 to 150: the two files of the export, on the files of the
    disk; the loop runs over the [zip] of the three sequences. *)
Definition export_predictions {Row} (run_dir : string)
    (predictions references : list string) (test_dataset : list Row)
    (files : gmap string string) : gmap string string :=
  let rows := zip predictions (zip references test_dataset) in
  let fpred := Py.join (map (fun row => text_line (fst row)) rows) in
  let fref := Py.join (map (fun row => text_line (fst (snd row))) rows) in
  <[run_dir +:+ "/references.txt" := fref]>
    (<[run_dir +:+ "/predictions.txt" := fpred]> files).

End Test.

(** ** [src/generate.py] *)

Module Generate.
Import Py.

(** A JSON value, as [json.loads] returns it and [json.dump] writes it.
    A number is kept as the text of its literal. *)
Inductive json : Type :=
| JNull
| JBool (b : bool)
| JNumber (literal : string)
| JString (s : string)
| JList (items : list json)
| JDict (entries : list (string * json)).

(** A byte that continues a character in UTF-8: its two high bits are 1
    and 0. *)
Definition is_continuation (c : ascii) : bool :=
  match c with
  | Ascii _ _ _ _ _ _ false true => true
  | _ => false
  end.

(** The continuation bytes a text starts with. *)
Fixpoint leading_continuations (s : string) : string :=
  match s with
  | EmptyString => EmptyString
  | String c s' =>
      if is_continuation c then String c (leading_continuations s')
      else EmptyString
  end.

(** [v[0]] on the value [json.loads] returned; the first character of a
    string is its first byte with the continuation bytes that follow. *)
Definition getitem0 (v : json) : result json :=
  match v with
  | JList (x :: _) => Ok x
  | JList [] => Raise IndexError
  | JString (String c s) => Ok (JString (String c (leading_continuations s)))
  | JString EmptyString => Raise IndexError
  | JDict _ => Raise (KeyError "0")
  | JNull | JBool _ | JNumber _ => Raise TypeError
  end.

(** A chat message, the dictionary with the keys [role] and [content]. *)
Record message : Type := { role : string; content : json }.

(** A row of a dataset: its text columns and its [messages] column,
    [None] when the dataset has no such column. *)
Record sample : Type := {
  columns : gmap string string;
  messages : option (list message)
}.

(** [sample["messages"]] *)
Definition get_messages (s : sample) : result (list message) :=
  match messages s with
  | Some chat => Ok chat
  | None => Raise (KeyError "messages")
  end.

(** A [LangchainDocument]; [metadata_code] is [metadata["code"]]. *)
Record Document : Type := { page_content : string; metadata_code : string }.

(** The FAISS vector store, by its one method the script calls. *)
Record VectorStore : Type := {
  similarity_search : string -> Z -> list Document
}.

(** What the script calls in other libraries. *)
Record Libraries : Type := {
  (* the order [Dataset.shuffle(seed)] gives for a seed it accepts *)
  shuffle : Z -> list sample -> list sample;
  (* [dataset[name]] for a column name: the values of the column, or the
     error of the library when the dataset has no such column *)
  column : list sample -> string -> result (list string);
  (* [FAISS.from_documents] with the embedding model *)
  from_documents : list Document -> VectorStore;
  (* [json.loads] and [json.dump] *)
  json_loads : string -> result json;
  json_dumps : json -> string;
  (* [evaluate.load("exact_match").compute] *)
  em_compute : list string -> list string -> json;
  (* [evaluate.load("chrf").compute], with its optional [word_order] *)
  chrf_compute : list string -> list (list string) -> option Z -> json;
  (* chat template, [model.generate] with [max_new_tokens], decoding of
     the new tokens and [strip] *)
  respond : list message -> Z -> string
}.

(** The command line, as [argparse] returns it.  [temperature] is the
    text that formatting the float gives; the sampling options, which only
    reach [model.generate], are part of [respond]. *)
Record CliArgs : Type := {
  model_name_or_path : string;
  peft_checkpoint_path : option string;
  dataset_name_or_path : string;
  temperature : string;
  use_icl : bool;
  icl_seed : Z;
  num_icl_examples : Z;
  use_rag : bool;
  rag_top_k : Z
}.

(** [args] once [main] has added its attributes. *)
Record Args : Type := {
  cli : CliArgs;
  model_name : string;
  dataset_name : string;
  max_new_tokens : Z;
  instruction_field : string;
  reference_field : string
}.

(** [s.split(sep)] for a one-character separator. *)
Fixpoint split_on (sep : ascii) (cur s : string) : list string :=
  match s with
  | EmptyString => [cur]
  | String c s' =>
      if Ascii.eqb c sep
      then cur :: split_on sep EmptyString s'
      else split_on sep (cur +:+ String c EmptyString) s'
  end.

(** [path.split("/")[-1]] *)
Definition last_part (path : string) : string :=
  List.last (split_on "/"%char EmptyString path) EmptyString.

(** [main], lines 116 to 133: the names and the dataset's settings. *)
Definition configure (a : CliArgs) : Args :=
  let name := last_part (dataset_name_or_path a) in
  let '(tokens, instruction, reference) :=
    if String.eqb name "conala" then (128, "nl", "cmd")
    else if String.eqb name "codealpaca" then (512, "prompt", "completion")
    else (1024, "question", "solutions") in
  {| cli := a;
     model_name := last_part (model_name_or_path a);
     dataset_name := name;
     max_new_tokens := tokens;
     instruction_field := instruction;
     reference_field := reference |}.

Definition user_message (c : json) : message :=
  {| role := "user"; content := c |}.
Definition assistant_message (c : json) : message :=
  {| role := "assistant"; content := c |}.

(** The two messages [prepare_input] makes of a retrieved document. *)
Definition doc_messages (doc : Document) : list message :=
  [ user_message (JString (page_content doc));
    assistant_message (JString (metadata_code doc)) ].

(** [prepare_input(sample, knowledge_base_vectors, args)] *)
Definition prepare_input (s : sample) (knowledge_base_vectors : option VectorStore)
    (args : Args) : result (list message) :=
  if use_rag (cli args) then
    letM query := getitem (columns s) (instruction_field args) in
    letM store := match knowledge_base_vectors with
                  | Some v => Ok v
                  | None => Raise AttributeError
                  end in
    let retrieved_docs := similarity_search store query (rag_top_k (cli args)) in
    let chat_docs := concat (map doc_messages retrieved_docs) in
    letM chat := get_messages s in
    Ok (chat_docs ++ drop_last 1 chat)
  else
    letM chat := get_messages s in
    Ok (drop_last 1 chat).

(** [generate], without the decorator: the responses in the order they
    are yielded. *)
Definition generate (L : Libraries) (args : Args) (dataset : list sample)
    (knowledge_base_vectors : option VectorStore) : result (list string) :=
  for_each
    (fun s =>
       letM example := prepare_input s knowledge_base_vectors args in
       Ok (respond L example (max_new_tokens args)))
    dataset.

(** [compute_metrics(args, responses, dataset)]; the dictionary it
    returns keeps the order of its keys. *)
Definition compute_metrics (L : Libraries) (args : Args) (responses : list string)
    (dataset : list sample) : result (list (string * json)) :=
  if String.eqb (dataset_name args) "apps" then Ok []
  else
    letM references := column L dataset (reference_field args) in
    let results_em := em_compute L responses references in
    let references_chrf := map (fun ref => [ref]) references in
    let results_chrf := chrf_compute L responses references_chrf None in
    let results_chrf2 := chrf_compute L responses references_chrf (Some 2) in
    Ok [("em", results_em); ("chrf", results_chrf); ("chrf2", results_chrf2)].

(** [dataset.shuffle(seed)]: an empty dataset is returned as it is; for
    another the random generator refuses a negative seed. *)
Definition dataset_shuffle (L : Libraries) (seed : Z) (l : list sample)
  : result (list sample) :=
  match l with
  | [] => Ok []
  | _ :: _ => if seed <? 0 then Raise ValueError else Ok (shuffle L seed l)
  end.

(** [dataset.select(range(n))]: the first [n] rows; an empty dataset is
    returned as it is, an index past the end of another is an error, and
    the range of a negative [n] is empty. *)
Definition select_range {A} (n : Z) (l : list A) : result (list A) :=
  match l with
  | [] => Ok []
  | _ :: _ =>
      if Z.of_nat (length l) <? n then Raise IndexError
      else Ok (take (Z.to_nat n) l)
  end.

(** The body of the loop over the ICL examples, lines 144 to 151. *)
Definition chat_exemple (L : Libraries) (args : Args) (example : sample)
  : result (list message) :=
  letM reference :=
    (if String.eqb (dataset_name args) "apps" then
       letM raw := getitem (columns example) (reference_field args) in
       letM parsed := json_loads L raw in
       getitem0 parsed
     else
       letM raw := getitem (columns example) (reference_field args) in
       Ok (JString raw)) in
  letM instruction := getitem (columns example) (instruction_field args) in
  Ok [user_message (JString instruction); assistant_message reference].

(** [chat_icl], lines 137 to 152. *)
Definition build_chat_icl (L : Libraries) (args : Args) (train : list sample)
  : result (list message) :=
  letM shuffled := dataset_shuffle L (icl_seed (cli args)) train in
  letM examples := select_range (num_icl_examples (cli args)) shuffled in
  letM pairs := for_each (chat_exemple L args) examples in
  Ok (concat pairs).

(** [add_icl_prompt(example)], lines 154 to 156. *)
Definition add_icl_prompt (chat_icl : list message) (example : sample)
  : result sample :=
  letM chat := get_messages example in
  Ok {| columns := columns example; messages := Some (chat_icl ++ chat) |}.

(** [knowledge_base], lines 160 to 166. *)
Definition build_knowledge_base (args : Args) (train : list sample)
  : result (list Document) :=
  for_each
    (fun s =>
       letM page := getitem (columns s) (instruction_field args) in
       letM code := getitem (columns s) (reference_field args) in
       Ok {| page_content := page; metadata_code := code |})
    train.

(** [main], lines 135 to 177: the dataset that is generated from and
    [knowledge_base_vectors]. *)
Definition prepare_run (L : Libraries) (args : Args) (train test : list sample)
  : result (list sample * option VectorStore) :=
  if use_icl (cli args) then
    letM chat_icl := build_chat_icl L args train in
    letM dataset := for_each (add_icl_prompt chat_icl) test in
    Ok (dataset, None)
  else if use_rag (cli args) then
    letM knowledge_base := build_knowledge_base args train in
    Ok (test, Some (from_documents L knowledge_base))
  else Ok (test, None).

(** What the decorator [track_gpu_usage] measures, each value as the text
    its formatting gives. *)
Record Measurements : Type := {
  init_gpu_memory : string;
  peak_gpu_memory : string;
  total_execution_time : string
}.

(** Modelled from the spec: [track_gpu_usage], which [generate.py]
    imports from [utils] and the sources do not define.  [main] unpacks
    the result of the decorated [generate] into the responses and three
    measurements: the responses are taken to be what the generator
    yields, run to its end, and the measurements are inputs. *)
Definition tracked_generate (L : Libraries) (args : Args)
    (dataset : list sample) (knowledge_base_vectors : option VectorStore)
    (m : Measurements) : result (list string * Measurements) :=
  letM responses := generate L args dataset knowledge_base_vectors in
  Ok (responses, m).

(** [d[key] = v] on a dictionary that keeps the order of its keys. *)
Fixpoint dict_set (key : string) (v : json) (d : list (string * json))
  : list (string * json) :=
  match d with
  | [] => [(key, v)]
  | (k, w) :: d' =>
      if String.eqb k key then (k, v) :: d' else (k, w) :: dict_set key v d'
  end.

(** [d.get(key)] on such a dictionary. *)
Fixpoint dict_get (key : string) (d : list (string * json)) : option json :=
  match d with
  | [] => None
  | (k, w) :: d' => if String.eqb k key then Some w else dict_get key d'
  end.

(** The dictionary of lines 184 to 189. *)
Definition final_metrics (metrics : list (string * json)) (m : Measurements)
  : list (string * json) :=
  dict_set "total_execution_time" (JString (total_execution_time m +:+ " seconds"))
    (dict_set "peak_gpu_memory" (JString (peak_gpu_memory m +:+ " MB"))
       (dict_set "init_gpu_memory" (JString (init_gpu_memory m +:+ " MB")) metrics)).

(** Lines 191 to 193; an empty string is false for Python's [if]. *)
Definition output_dir (args : Args) : string :=
  match peft_checkpoint_path (cli args) with
  | Some (String c p) => String c p +:+ "/results"
  | Some EmptyString | None => "runs/" +:+ model_name args +:+ "/results"
  end.

(** Lines 196 to 200. *)
Definition file_suffix (args : Args) : string :=
  let a := cli args in
  let file_suffix := dataset_name args +:+ "_t" +:+ temperature a in
  if use_icl a then
    file_suffix +:+ "_icl_n" +:+ str_int (num_icl_examples a)
                +:+ "_s" +:+ str_int (icl_seed a)
  else if use_rag a then file_suffix +:+ "_rag_k" +:+ str_int (rag_top_k a)
  else file_suffix.

Definition metrics_path (args : Args) : string :=
  output_dir args +:+ "/metrics_" +:+ file_suffix args +:+ ".jsonl".
Definition responses_path (args : Args) : string :=
  output_dir args +:+ "/responses_" +:+ file_suffix args +:+ ".jsonl".

Definition newline_text : string := String newline EmptyString.

(** The JSON object written for one response. *)
Definition response_object (response : string) : json :=
  JDict [("response", JString response)].

(** One line of the responses file. *)
Definition response_line (L : Libraries) (response : string) : string :=
  json_dumps L (response_object response) +:+ newline_text.

(** Lines 202 to 208 on the files of the disk, a map from paths to
    contents: a file opened with mode [w] is replaced by what is written.
    The directory of the two files is made first ([os.makedirs]). *)
Definition write_results (L : Libraries) (args : Args)
    (metrics : list (string * json)) (responses : list string)
    (files : gmap string string) : gmap string string :=
  let files := <[metrics_path args := json_dumps L (JDict metrics)]> files in
  <[responses_path args := join (map (response_line L) responses)]> files.

(** [main(args)], from the loaded splits to the files it leaves. *)
Definition main (L : Libraries) (a : CliArgs) (train test : list sample)
    (m : Measurements) (files : gmap string string)
  : result (gmap string string) :=
  let args := configure a in
  letM run := prepare_run L args train test in
  let '(dataset, knowledge_base_vectors) := run in
  letM tracked := tracked_generate L args dataset knowledge_base_vectors m in
  let '(responses, measured) := tracked in
  letM metrics := compute_metrics L args responses dataset in
  Ok (write_results L args (final_metrics metrics measured) responses files).

(** The lines of a text file, as reading it line by line gives them,
    without their final newline. *)
Fixpoint lines_go (cur s : string) : list string :=
  match s with
  | EmptyString =>
      match cur with EmptyString => [] | _ => [cur] end
  | String c s' =>
      if Ascii.eqb c newline then cur :: lines_go EmptyString s'
      else lines_go (cur +:+ String c EmptyString) s'
  end.
Definition lines (s : string) : list string := lines_go EmptyString s.

End Generate.

(** ** [src/utils.py] *)

Module Utils.

(** A row of the ODEX test split, by its [intent] column ([None] for a
    null), and the rest of its columns. *)
Record odex_row : Type := {
  intent : option string;
  other_columns : gmap string string
}.

(** [load_odex_test_dataset()], from the two splits [load_dataset]
    returns: [dataset] is the ODEX test split and [conala_nl] the column
    [nl] of the CoNaLa training split. *)
Definition load_odex_test_dataset (dataset : list odex_row)
    (conala_nl : list (option string)) : list odex_row :=
  filter (fun example => intent example ∉ conala_nl) dataset.

(** A row of the CoNaLa dataset, by its columns [nl] and [cmd] ([None] for
    a null), and the rest of its columns. *)
Record conala_row : Type := {
  nl : option string;
  cmd : option string;
  conala_columns : gmap string string
}.

(** [load_conala_train_dataset()], from the splits [load_dataset] returns;
    [DatasetDict.filter] filters every split. *)
Definition load_conala_train_dataset (datasets : gmap string (list conala_row))
  : Py.result (gmap string (list conala_row)) :=
  let datasets := filter (fun x => nl x <> None) <$> datasets in
  let datasets := filter (fun x => cmd x <> None) <$> datasets in
  Py.delitem datasets "test".

(** [load_conala_test_dataset()] and [load_codealpaca_test_dataset()]. *)
Definition load_test_dataset {Row} (datasets : gmap string (list Row))
  : Py.result (list Row) :=
  Py.getitem datasets "test".

(** [load_codealpaca_train_dataset()], from the splits [load_dataset]
    returns. *)
Definition load_codealpaca_train_dataset {Row}
    (dataset : gmap string (list Row)) : Py.result (gmap string (list Row)) :=
  letM valid := Py.getitem dataset "valid" in
  let dataset := <["validation" := valid]> dataset in
  letM dataset := Py.delitem dataset "test" in
  Py.delitem dataset "valid".

End Utils.

(** ** A small instance of the libraries and of the data

    Stand-ins for the libraries, small enough to compute with, and a few
    rows in the format of the CoNaLa splits.  They are the concrete inputs
    of the examples below. *)

Module Demo.
Import Py Generate.

(** A tokenizer with one token per character, the token being the code of
    the character. *)
Definition encode (s : string) : list Z :=
  map (fun c => Z.of_nat (nat_of_ascii c)) (list_ascii_of_string s).

Definition char_tokenizer : Test.Tokenizer :=
  {| Test.decode := fun ids =>
       string_of_list_ascii (map (fun id => ascii_of_nat (Z.to_nat id)) ids) |}.

(** The criterion of [test_conala_code_generation] for prompts of 8
    tokens. *)
Definition criteria : Test.EndOfFunctionCriteria :=
  {| Test.start_length := 8;
     Test.eof_strings := Test.EOF_STRINGS;
     Test.tokenizer := char_tokenizer |}.

Definition quote : ascii := "034"%char.
Definition backslash : ascii := "092"%char.

(** The JSON text of a string: quotes, backslashes and newlines escaped. *)
Fixpoint escape (s : string) : string :=
  match s with
  | EmptyString => EmptyString
  | String c s' =>
      if Ascii.eqb c newline then String backslash (String "n" (escape s'))
      else if Ascii.eqb c quote then String backslash (String quote (escape s'))
      else if Ascii.eqb c backslash
           then String backslash (String backslash (escape s'))
      else String c (escape s')
  end.

Definition dumps_string (s : string) : string :=
  String quote (escape s) +:+ String quote EmptyString.

(** [sep.join(l)] *)
Fixpoint join_sep (sep : string) (l : list string) : string :=
  match l with
  | [] => EmptyString
  | [x] => x
  | x :: l' => x +:+ sep +:+ join_sep sep l'
  end.

(** The JSON text of a value, to a depth of [fuel] dictionaries. *)
Fixpoint dumps (fuel : nat) (v : json) : string :=
  match v with
  | JNull => "null"
  | JBool true => "true"
  | JBool false => "false"
  | JNumber literal => literal
  | JString s => dumps_string s
  | JList _ => "[...]"
  | JDict entries =>
      match fuel with
      | O => "{...}"
      | S fuel' =>
          "{" +:+ join_sep ", "
                    (map (fun e => dumps_string (fst e) +:+ ": "
                                     +:+ dumps fuel' (snd e))
                       entries) +:+ "}"
      end
  end.

(** The text up to the next quote. *)
Fixpoint until_quote (s : string) : string :=
  match s with
  | EmptyString => EmptyString
  | String c s' =>
      if Ascii.eqb c quote then EmptyString else String c (until_quote s')
  end.

(** Reads the JSON text of a list whose first item is a plain string. *)
Definition loads (s : string) : result json :=
  match s with
  | String "["%char (String q rest) =>
      if Ascii.eqb q quote then Ok (JList [JString (until_quote rest)])
      else Raise JSONDecodeError
  | _ => Raise JSONDecodeError
  end.

Definition store_of (docs : list Document) : VectorStore :=
  {| similarity_search := fun _ k => take (Z.to_nat k) docs |}.

(** The values of a column that every row has. *)
Definition column_of (dataset : list sample) (name : string)
  : result (list string) :=
  match for_each (fun s => getitem (columns s) name) dataset with
  | Ok values => Ok values
  | Raise _ =>
      Raise (KeyError ("Column " +:+ name +:+ " not in the dataset"))
  end.

Definition libraries : Libraries :=
  {| shuffle := fun _ l => rev l;
     column := column_of;
     from_documents := store_of;
     json_loads := loads;
     json_dumps := dumps 3;
     em_compute := fun predictions references =>
       JDict [("exact_match",
               JNumber (if decide (predictions = references)
                        then "1.0" else "0.0"))];
     chrf_compute := fun _ _ word_order =>
       JDict [("score", JNumber "0.0");
              ("word_order",
               JNumber (match word_order with
                        | Some n => str_int n
                        | None => "0"
                        end))];
     respond := fun example _ =>
       "print(" +:+ str_int (Z.of_nat (length example)) +:+ ")"
                +:+ String newline "# done" |}.

Definition row (nl cmd : string) : sample :=
  {| columns := <["nl" := nl]> (<["cmd" := cmd]> ∅);
     messages := Some [ user_message (JString nl);
                        assistant_message (JString cmd) ] |}.

Definition train : list sample :=
  [ row "sort a list xs" "xs.sort()";
    row "reverse a list xs" "xs.reverse()";
    row "length of a list xs" "len(xs)" ].

Definition test : list sample :=
  [ row "sum of a list xs" "sum(xs)";
    row "copy a list xs" "xs[:]" ].

Definition cli_plain : CliArgs :=
  {| model_name_or_path := "bigcode/starcoder";
     peft_checkpoint_path := None;
     dataset_name_or_path := "datasets/conala";
     temperature := "0.2";
     use_icl := false; icl_seed := 42; num_icl_examples := 3;
     use_rag := false; rag_top_k := 1 |}.

Definition cli_icl : CliArgs :=
  {| model_name_or_path := "bigcode/starcoder";
     peft_checkpoint_path := Some "runs/lora";
     dataset_name_or_path := "datasets/conala";
     temperature := "0.2";
     use_icl := true; icl_seed := 42; num_icl_examples := 2;
     use_rag := false; rag_top_k := 1 |}.

Definition cli_rag : CliArgs :=
  {| model_name_or_path := "bigcode/starcoder";
     peft_checkpoint_path := None;
     dataset_name_or_path := "datasets/conala";
     temperature := "0.2";
     use_icl := false; icl_seed := 42; num_icl_examples := 3;
     use_rag := true; rag_top_k := 2 |}.

Definition cli_icl_rag : CliArgs :=
  {| model_name_or_path := "bigcode/starcoder";
     peft_checkpoint_path := None;
     dataset_name_or_path := "datasets/conala";
     temperature := "0.2";
     use_icl := true; icl_seed := 42; num_icl_examples := 1;
     use_rag := true; rag_top_k := 1 |}.

Definition cli_rag_top5 : CliArgs :=
  {| model_name_or_path := "bigcode/starcoder";
     peft_checkpoint_path := None;
     dataset_name_or_path := "datasets/conala";
     temperature := "0.2";
     use_icl := false; icl_seed := 42; num_icl_examples := 3;
     use_rag := true; rag_top_k := 5 |}.

Definition cli_negative_seed : CliArgs :=
  {| model_name_or_path := "bigcode/starcoder";
     peft_checkpoint_path := None;
     dataset_name_or_path := "datasets/conala";
     temperature := "0.2";
     use_icl := true; icl_seed := -1; num_icl_examples := 2;
     use_rag := false; rag_top_k := 1 |}.

Definition cli_trailing_slash : CliArgs :=
  {| model_name_or_path := "bigcode/starcoder";
     peft_checkpoint_path := None;
     dataset_name_or_path := "datasets/conala/";
     temperature := "0.2";
     use_icl := false; icl_seed := 42; num_icl_examples := 3;
     use_rag := false; rag_top_k := 1 |}.

Definition cli_apps : CliArgs :=
  {| model_name_or_path := "bigcode/starcoder";
     peft_checkpoint_path := None;
     dataset_name_or_path := "datasets/apps";
     temperature := "0.2";
     use_icl := false; icl_seed := 42; num_icl_examples := 3;
     use_rag := false; rag_top_k := 1 |}.

Definition apps_row : sample :=
  {| columns := <["question" := "print the sum of two numbers"]>
                  (<["solutions" :=
                       String "["%char (String quote "print(a + b)")
                         +:+ String quote "]"]> ∅);
     messages := Some [ user_message (JString "print the sum of two numbers");
                        assistant_message (JString "print(a + b)") ] |}.

Definition measurements : Measurements :=
  {| init_gpu_memory := "1024";
     peak_gpu_memory := "2048";
     total_execution_time := "12.5" |}.

End Demo.

(** * Properties *)

(** ** Strings *)

Module StrFacts.
Import Py.

Lemma str_app_cons a s t : String a s +:+ t = String a (s +:+ t).
Proof. reflexivity. Qed.

Lemma str_app_nil_l s : EmptyString +:+ s = s.
Proof. reflexivity. Qed.

Lemma str_app_nil_r s : s +:+ EmptyString = s.
Proof. induction s as [|a s IH]; [reflexivity|]. now rewrite str_app_cons, IH. Qed.

Lemma str_app_assoc s t u : (s +:+ t) +:+ u = s +:+ t +:+ u.
Proof.
  induction s as [|a s IH]; [reflexivity|]. now rewrite !str_app_cons, IH.
Qed.

Lemma str_length_app s t :
  String.length (s +:+ t) = (String.length s + String.length t)%nat.
Proof.
  induction s as [|a s IH]; [reflexivity|].
  rewrite str_app_cons. simpl. now rewrite IH.
Qed.

Lemma startswith_spec p s :
  startswith p s = true <-> exists post, s = p +:+ post.
Proof.
  split.
  - revert s. induction p as [|a p IH]; intros s H.
    + now exists s.
    + destruct s as [|b s]; [discriminate|]. simpl in H.
      destruct (Ascii.eqb_spec a b) as [->|]; [|discriminate].
      destruct (IH _ H) as [post ->]. now exists post.
  - intros [post ->]. induction p as [|a p IH]; [reflexivity|].
    rewrite str_app_cons. simpl. now rewrite Ascii.eqb_refl.
Qed.

Lemma str_in_unfold sub s :
  str_in sub s =
  startswith sub s ||
  match s with EmptyString => false | String _ s' => str_in sub s' end.
Proof. destruct s; reflexivity. Qed.

Lemma str_in_spec sub s : str_in sub s = true <-> contains sub s.
Proof.
  split.
  - induction s as [|c s IH]; rewrite str_in_unfold; intros H;
      apply orb_true_iff in H as [H|H].
    + apply startswith_spec in H as [post ->]. now exists EmptyString, post.
    + discriminate.
    + apply startswith_spec in H as [post ->]. now exists EmptyString, post.
    + destruct (IH H) as (pre & post & ->). now exists (String c pre), post.
  - intros (pre & post & ->). induction pre as [|c pre IH].
    + rewrite str_in_unfold. apply orb_true_iff. left.
      apply startswith_spec. now exists post.
    + rewrite str_app_cons, str_in_unfold, IH. apply orb_true_r.
Qed.

Lemma str_in_false sub s : str_in sub s = false <-> ~ contains sub s.
Proof.
  rewrite <- str_in_spec. destruct (str_in sub s); split; congruence.
Qed.

(** Two ways of cutting one string: the shorter first part is a prefix of
    the longer. *)
Lemma str_app_split s1 s2 t1 t2 :
  s1 +:+ s2 = t1 +:+ t2 -> (String.length s1 <= String.length t1)%nat ->
  exists e, t1 = s1 +:+ e /\ s2 = e +:+ t2.
Proof.
  revert t1. induction s1 as [|a s1 IH]; intros t1 H Hlen.
  - exists t1. split; [reflexivity | exact H].
  - destruct t1 as [|b t1]; [simpl in Hlen; lia|].
    rewrite !str_app_cons in H. injection H as -> H.
    destruct (IH t1 H) as (e & -> & ->); [simpl in Hlen; lia|].
    now exists e.
Qed.

Lemma str_drop_app m rest : str_drop (String.length m) (m +:+ rest) = rest.
Proof.
  induction m as [|a m IH]; [now destruct rest|]. rewrite str_app_cons. exact IH.
Qed.

End StrFacts.

(** ** The stopping criterion *)

Module TestFacts.
Import Py StrFacts Test.

Lemma any_true (l : list bool) : any l = true <-> true ∈ l.
Proof.
  unfold any. rewrite existsb_exists. split.
  - intros (b & Hin & Hb). unfold id in Hb. subst b.
    now apply list_elem_of_In.
  - intros Hin. exists true. split; [now apply list_elem_of_In | reflexivity].
Qed.

Lemma all_true (l : list bool) : all l = true <-> forall b, b ∈ l -> b = true.
Proof.
  unfold all. rewrite forallb_forall. split.
  - intros H b Hb. apply (H b). now apply list_elem_of_In.
  - intros H b Hb. apply (H b). now apply list_elem_of_In.
Qed.

Lemma call_spec self input_ids :
  call self input_ids = true <->
  forall row, row ∈ input_ids ->
    exists stop_string,
      stop_string ∈ eof_strings self /\
      contains stop_string
        (decode (tokenizer self) (slice_from (start_length self) row)).
Proof.
  unfold call, batch_decode. rewrite all_true. split.
  - intros H row Hrow.
    assert (Hany : any (map (fun stop_string =>
                str_in stop_string
                  (decode (tokenizer self) (slice_from (start_length self) row)))
              (eof_strings self)) = true).
    { apply H. rewrite !map_map. apply list_elem_of_fmap.
      exists row. split; [reflexivity | exact Hrow]. }
    apply any_true, list_elem_of_fmap in Hany as (stop & Hstop & Hin).
    exists stop. split; [exact Hin|]. now apply str_in_spec.
  - intros H b Hb. rewrite !map_map in Hb.
    apply list_elem_of_fmap in Hb as (row & -> & Hrow).
    destruct (H row Hrow) as (stop & Hin & Hc).
    apply any_true, list_elem_of_fmap. exists stop.
    split; [|exact Hin]. symmetry. now apply str_in_spec.
Qed.




(** A batch of two rows with prompts of 8 tokens: it is done once both
    generations hold an end-of-function string, and a prompt that holds one
    does not count. *)
Example call_batch_done :
  call Demo.criteria
    [ Demo.encode "sort xs " ++ Demo.encode "xs.sort()</s>";
      Demo.encode "</s> xs " ++ Demo.encode "len(xs)<|endoftext|>" ] = true.
Proof. reflexivity. Qed.

Example call_batch_not_done :
  call Demo.criteria
    [ Demo.encode "sort xs " ++ Demo.encode "xs.sort()</s>";
      Demo.encode "</s> xs " ++ Demo.encode "len(xs)" ] = false.
Proof. reflexivity. Qed.

End TestFacts.

(** ** The scan of [re.split] *)

Module ReFacts.
Import Py StrFacts Re.

Lemma match_alt_Some alts s m :
  match_alt alts s = Some m -> m ∈ alts /\ startswith m s = true.
Proof.
  induction alts as [|a alts IH]; [discriminate|]. simpl.
  destruct (startswith a s) eqn:Ha.
  - intros [= <-]. split; [left | exact Ha].
  - intros H. destruct (IH H) as [Hin Hm]. split; [now right | exact Hm].
Qed.

Lemma match_alt_None alts s :
  match_alt alts s = None <-> forall m, m ∈ alts -> startswith m s = false.
Proof.
  induction alts as [|a alts IH]; simpl.
  - split; [|reflexivity]. intros _ m Hm. inversion Hm.
  - destruct (startswith a s) eqn:Ha.
    + split; [discriminate|]. intros H.
      rewrite (H a) in Ha by left. discriminate.
    + rewrite IH. split.
      * intros H m Hm. inversion Hm; subst; [exact Ha | now apply H].
      * intros H m Hm. apply H. now right.
Qed.

(** Passing over [k] characters is scanning what is left after them. *)
Lemma scan_skip alts k seg s :
  split_scan alts k seg s = split_scan alts 0 seg (str_drop k s).
Proof.
  revert k. induction s as [|c s IH]; intros [|k]; try reflexivity.
  simpl. apply IH.
Qed.

(** The scan at a match: the text so far, the match, and the scan of the
    rest. *)
Lemma scan_match alts seg m rest :
  m <> EmptyString -> match_alt alts (m +:+ rest) = Some m ->
  split_scan alts 0 seg (m +:+ rest) =
  seg :: m :: split_scan alts 0 EmptyString rest.
Proof.
  intros Hm H. destruct m as [|c m]; [contradiction|].
  rewrite str_app_cons in *. simpl split_scan. rewrite H.
  rewrite scan_skip.
  replace (String.length (String c m) - 1)%nat with (String.length m)
    by (simpl; lia).
  now rewrite str_drop_app.
Qed.

Lemma scan_no_match alts seg c s :
  match_alt alts (String c s) = None ->
  split_scan alts 0 seg (String c s) =
  split_scan alts 0 (seg +:+ String c EmptyString) s.
Proof. intros H. simpl. now rewrite H. Qed.

Section Scan.
Variable alts : list string.
Hypothesis alts_shape : forall m, m ∈ alts -> marker_shape m.

Lemma occurs_true s :
  occurs alts s = true <-> exists m, m ∈ alts /\ contains m s.
Proof.
  unfold occurs. rewrite existsb_exists. split.
  - intros (m & Hin & H). exists m.
    split; [now apply list_elem_of_In | now apply str_in_spec].
  - intros (m & Hin & H). exists m.
    split; [now apply list_elem_of_In | now apply str_in_spec].
Qed.

Lemma occurs_false s :
  occurs alts s = false <-> forall m, m ∈ alts -> ~ contains m s.
Proof.
  split.
  - intros H m Hin Hc.
    assert (occurs alts s = true) by (apply occurs_true; eauto). congruence.
  - intros H. destruct (occurs alts s) eqn:E; [|reflexivity].
    apply occurs_true in E as (m & Hin & Hc). now destruct (H m Hin).
Qed.

Lemma shape_not_empty m : m ∈ alts -> m <> EmptyString.
Proof. intros Hin. destruct (alts_shape m Hin) as (t & -> & _). discriminate. Qed.

Lemma occurs_empty : occurs alts EmptyString = false.
Proof.
  apply occurs_false. intros m Hin (pre & post & H).
  apply (shape_not_empty m Hin).
  destruct pre; [|rewrite str_app_cons in H; discriminate].
  rewrite str_app_nil_l in H.
  destruct m; [reflexivity | rewrite str_app_cons in H; discriminate].
Qed.

Lemma occurs_cons c s :
  match_alt alts (String c s) = None ->
  occurs alts (String c s) = occurs alts s.
Proof.
  intros Hnone. unfold occurs. apply eq_true_iff_eq.
  rewrite !existsb_exists. split; intros (m & Hin & H); exists m;
    (split; [exact Hin|]).
  - rewrite str_in_unfold in H.
    rewrite (proj1 (match_alt_None _ _) Hnone m) in H
      by now apply list_elem_of_In.
    exact H.
  - rewrite str_in_unfold, H. apply orb_true_r.
Qed.

(** Without an occurrence the scan returns the text in one piece. *)
Lemma scan_no_occurrence seg s :
  occurs alts s = false -> split_scan alts 0 seg s = [seg +:+ s].
Proof.
  revert seg. induction s as [|c s IH]; intros seg H.
  - simpl. now rewrite str_app_nil_r.
  - assert (Hnone : match_alt alts (String c s) = None).
    { apply match_alt_None. intros m Hin.
      destruct (startswith m (String c s)) eqn:E; [|reflexivity].
      exfalso. apply (proj1 (occurs_false _) H m Hin).
      apply startswith_spec in E as [post E].
      exists EmptyString, post. exact E. }
    rewrite scan_no_match by exact Hnone.
    rewrite IH by (now rewrite <- (occurs_cons c)).
    now rewrite str_app_assoc.
Qed.

(** Two occurrences of markers do not overlap: after an occurrence
    [m], the next one starts at its end or later. *)
Lemma no_overlap m post e m2 post2 :
  m ∈ alts -> m2 ∈ alts -> e <> EmptyString ->
  m +:+ post = e +:+ m2 +:+ post2 ->
  exists e', e = m +:+ e'.
Proof.
  intros Hm Hm2 He H.
  destruct (Nat.le_gt_cases (String.length m) (String.length e)) as [Hle|Hgt].
  - destruct (str_app_split _ _ _ _ H Hle) as (e' & -> & _). now exists e'.
  - exfalso. symmetry in H.
    destruct (str_app_split _ _ _ _ H ltac:(lia)) as (f & -> & Hf).
    destruct (alts_shape m2 Hm2) as (t2 & -> & _).
    destruct (alts_shape _ Hm) as (t & Ht & Hfree).
    destruct e as [|a e]; [contradiction|].
    destruct f as [|b f].
    { rewrite str_app_nil_r in Hgt. lia. }
    rewrite !str_app_cons in Hf. injection Hf as Hb _. subst b.
    rewrite str_app_cons in Ht. injection Ht as _ <-.
    apply str_in_false in Hfree. apply Hfree.
    exists e, f. reflexivity.
Qed.

(** The scan of a text in which a marker occurs: the pieces end with
    the last occurrence [m] of a marker and the text [post] after it,
    and the pieces before them make up the text before [m]. *)
Lemma scan_last_occurrence n : forall seg s,
  (String.length s <= n)%nat -> occurs alts s = true ->
  exists pieces pre m post,
    split_scan alts 0 seg s = pieces ++ [m; post] /\
    join pieces = seg +:+ pre /\
    s = pre +:+ m +:+ post /\
    m ∈ alts /\
    occurs alts post = false.
Proof.
  induction n as [|n IH]; intros seg s Hlen Hocc.
  - destruct s; [|simpl in Hlen; lia].
    rewrite occurs_empty in Hocc. discriminate.
  - destruct s as [|c s]; [rewrite occurs_empty in Hocc; discriminate|].
    destruct (match_alt alts (String c s)) as [m0|] eqn:Hm.
    + destruct (match_alt_Some _ _ _ Hm) as [Hin Hsw].
      apply startswith_spec in Hsw as [rest Hrest].
      pose proof (shape_not_empty _ Hin) as Hne.
      rewrite Hrest in Hm |- *. rewrite scan_match by assumption.
      assert (Hlen' : (String.length rest <= n)%nat).
      { apply (f_equal String.length) in Hrest.
        rewrite str_length_app in Hrest. simpl in Hrest, Hlen.
        destruct m0; [contradiction | simpl in Hrest; lia]. }
      destruct (occurs alts rest) eqn:Hrocc.
      * destruct (IH EmptyString rest Hlen' Hrocc)
          as (pieces & pre & m & post & Hs & Hj & -> & Hmin & Hpost).
        exists (seg :: m0 :: pieces), (m0 +:+ pre), m, post.
        rewrite Hs. repeat split; try assumption.
        -- simpl. now rewrite Hj.
        -- now rewrite str_app_assoc.
      * exists [seg], EmptyString, m0, rest.
        rewrite scan_no_occurrence by assumption.
        repeat split; try assumption.
    + rewrite scan_no_match by assumption.
      rewrite occurs_cons in Hocc by assumption.
      destruct (IH (seg +:+ String c EmptyString) s ltac:(simpl in Hlen; lia) Hocc)
        as (pieces & pre & m & post & Hs & Hj & -> & Hmin & Hpost).
      exists pieces, (String c pre), m, post.
      repeat split; try assumption.
      now rewrite Hj, str_app_assoc.
Qed.

(** No marker starts after the last occurrence. *)
Lemma last_occurrence_is_last pre m post pre' m' post' :
  m ∈ alts -> occurs alts post = false -> m' ∈ alts ->
  pre +:+ m +:+ post = pre' +:+ m' +:+ post' ->
  (String.length pre' <= String.length pre)%nat.
Proof.
  intros Hm Hpost Hm' H.
  destruct (Nat.le_gt_cases (String.length pre') (String.length pre))
    as [Hle|Hgt]; [exact Hle | exfalso].
  destruct (str_app_split _ _ _ _ H ltac:(lia)) as (e & -> & He).
  assert (Hne : e <> EmptyString).
  { intros ->. rewrite str_app_nil_r in Hgt. lia. }
  destruct (no_overlap _ _ _ _ _ Hm Hm' Hne He) as [e' ->].
  rewrite str_app_assoc in He. apply String.app_inj in He.
  apply (proj1 (occurs_false _) Hpost m' Hm').
  exists e', post'. exact He.
Qed.

End Scan.

End ReFacts.

(** ** [remove_last_block] *)

Module BlockFacts.
Import Py StrFacts Re ReFacts Test.

Lemma markers_shape m : m ∈ HUMAN_EVAL_EOF_STRINGS -> marker_shape m.
Proof.
  unfold HUMAN_EVAL_EOF_STRINGS. intros H.
  repeat (apply elem_of_cons in H as [->|H];
          [eexists; split; reflexivity|]).
  inversion H.
Qed.

Lemma drop_last_two {A} (pieces : list A) x y :
  drop_last 2 (pieces ++ [x; y]) = pieces.
Proof.
  unfold drop_last. rewrite List.length_app. simpl.
  replace (length pieces + 2 - 2)%nat with (length pieces) by lia.
  apply take_app_length.
Qed.

(** C8. A string in which no marker of [HUMAN_EVAL_EOF_STRINGS] occurs is
    not returned unchanged: [remove_last_block] returns the empty string. *)
Theorem remove_last_block_no_marker s :
  (forall m, m ∈ HUMAN_EVAL_EOF_STRINGS -> ~ contains m s) ->
  remove_last_block s = EmptyString.
Proof.
  intros H. unfold remove_last_block, split.
  rewrite (scan_no_occurrence HUMAN_EVAL_EOF_STRINGS)
    by (now apply occurs_false).
  reflexivity.
Qed.

Lemma remove_last_block_no_marker_witness :
  remove_last_block "    return x + 1" = EmptyString.
Proof.
  apply (remove_last_block_no_marker "    return x + 1").
  apply (occurs_false HUMAN_EVAL_EOF_STRINGS). reflexivity.
Defined.

(** C2. When a marker of [HUMAN_EVAL_EOF_STRINGS] occurs in [s], the
    string is [pre +:+ m +:+ post] where [m] is the last occurrence of a
    marker, the last match of the scan of [re.split], and
    [remove_last_block s] is [pre]: the last marker and all that follows
    it are trimmed off and what precedes them is returned as it is. *)
Theorem remove_last_block_trims_last_marker s :
  (exists m, m ∈ HUMAN_EVAL_EOF_STRINGS /\ contains m s) ->
  exists pre m post,
    s = pre +:+ m +:+ post /\
    m ∈ HUMAN_EVAL_EOF_STRINGS /\
    (forall pre' m' post',
       m' ∈ HUMAN_EVAL_EOF_STRINGS -> s = pre' +:+ m' +:+ post' ->
       (String.length pre' <= String.length pre)%nat) /\
    (exists pieces,
       split HUMAN_EVAL_EOF_STRINGS s = pieces ++ [m; post] /\
       join pieces = pre) /\
    remove_last_block s = pre.
Proof.
  intros H. apply occurs_true in H.
  destruct (scan_last_occurrence _ markers_shape (String.length s)
              EmptyString s (Nat.le_refl _) H)
    as (pieces & pre & m & post & Hs & Hj & Heq & Hin & Hpost).
  rewrite str_app_nil_l in Hj.
  exists pre, m, post. repeat split; try assumption.
  - intros pre' m' post' Hin' Heq'. subst s.
    exact (last_occurrence_is_last _ markers_shape pre m post pre' m' post'
             Hin Hpost Hin' Heq').
  - exists pieces. split; assumption.
  - unfold remove_last_block, split. rewrite Hs, drop_last_two. exact Hj.
Qed.

Lemma remove_last_block_trims_last_marker_witness :
  exists pre m post,
    ("    return 1" +:+ String newline "def g():" +:+ String newline "print(g())")
    = pre +:+ m +:+ post /\
    m ∈ HUMAN_EVAL_EOF_STRINGS /\
    (forall pre' m' post',
       m' ∈ HUMAN_EVAL_EOF_STRINGS ->
       ("    return 1" +:+ String newline "def g():" +:+ String newline "print(g())")
       = pre' +:+ m' +:+ post' ->
       (String.length pre' <= String.length pre)%nat) /\
    (exists pieces,
       split HUMAN_EVAL_EOF_STRINGS
         ("    return 1" +:+ String newline "def g():" +:+ String newline "print(g())")
       = pieces ++ [m; post] /\
       join pieces = pre) /\
    remove_last_block
      ("    return 1" +:+ String newline "def g():" +:+ String newline "print(g())")
    = pre.
Proof.
  apply (remove_last_block_trims_last_marker
           ("    return 1" +:+ String newline "def g():"
              +:+ String newline "print(g())")).
  exists (String newline "def"). split.
  - unfold HUMAN_EVAL_EOF_STRINGS. right. left.
  - exists "    return 1", (" g():" +:+ String newline "print(g())").
    reflexivity.
Defined.

(** The same input, evaluated: the call [print(g())] the model went on
    to write after the function is cut off. *)
Example remove_last_block_example :
  remove_last_block
    ("    return 1" +:+ String newline "def g():" +:+ String newline "print(g())")
  = "    return 1" +:+ String newline "def g():".
Proof. reflexivity. Qed.

End BlockFacts.

(** ** [generate.py]: the inputs of the model *)

Module GenerateFacts.
Import Py StrFacts Generate.

Lemma getitem_Ok {V} (d : gmap string V) key v :
  getitem d key = Ok v <-> d !! key = Some v.
Proof.
  unfold getitem. destruct (d !! key); split; intros H; congruence.
Qed.

(** A loop that ends without an exception has run its body on every
    element, in order. *)
Lemma for_each_Ok {A B} (f : A -> result B) l ys :
  for_each f l = Ok ys <-> Forall2 (fun x y => f x = Ok y) l ys.
Proof.
  revert ys. induction l as [|x l IH]; intros ys; simpl.
  - split; [intros [= <-]; constructor | intros H; now inversion H].
  - destruct (f x) as [y|e] eqn:Hx; simpl.
    + destruct (for_each f l) as [ys'|e]; simpl.
      * split.
        -- intros [= <-]. constructor; [exact Hx | now apply IH].
        -- intros H. inversion H as [|? y' ? ys'' Hy Hys]; subst.
           apply IH in Hys. congruence.
      * split; [discriminate|].
        intros H. inversion H as [|? y' ? ys'' Hy Hys]; subst.
        apply IH in Hys. discriminate.
    + split; [discriminate|].
      intros H. inversion H; subst. congruence.
Qed.

Lemma for_each_succeeds {A B} (f : A -> result B) l :
  (forall x, x ∈ l -> exists y, f x = Ok y) ->
  exists ys, for_each f l = Ok ys.
Proof.
  induction l as [|x l IH]; intros H; simpl; [now eexists|].
  destruct (H x) as [y ->]; [left|].
  destruct IH as [ys ->]; [intros z Hz; apply H; now right|].
  now eexists.
Qed.

(** [l[:-1]] is [l] without its final element. *)
Lemma drop_last_one {A} (init : list A) final :
  drop_last 1 (init ++ [final]) = init.
Proof.
  unfold drop_last. rewrite List.length_app. simpl.
  replace (length init + 1 - 1)%nat with (length init) by lia.
  apply take_app_length.
Qed.

(** Lists of two elements glued together: the sizes and the places. *)
Lemma concat_pairs_length {A} (pairs : list (list A)) :
  Forall (fun p => length p = 2%nat) pairs ->
  length (concat pairs) = (2 * length pairs)%nat.
Proof.
  induction 1 as [|p pairs Hp _ IH]; [reflexivity|].
  simpl. rewrite List.length_app, Hp, IH. lia.
Qed.

Lemma concat_pairs_lookup {A} (pairs : list (list A)) i x y :
  Forall (fun p => length p = 2%nat) pairs ->
  pairs !! i = Some [x; y] ->
  concat pairs !! (2 * i)%nat = Some x /\
  concat pairs !! (2 * i + 1)%nat = Some y.
Proof.
  intros Hall. revert i. induction Hall as [|p pairs Hp _ IH]; intros i Hi.
  - discriminate.
  - destruct i as [|i].
    + injection Hi as ->. split; reflexivity.
    + destruct p as [|a [|b [|]]]; try discriminate Hp.
      replace (2 * S i)%nat with (S (S (2 * i))) by lia.
      apply (IH i Hi).
Qed.

Lemma cli_configure a : cli (configure a) = a.
Proof.
  unfold configure.
  destruct (String.eqb _ "conala"); [reflexivity|].
  destruct (String.eqb _ "codealpaca"); reflexivity.
Qed.

(** C6. [main] derives the settings from the dataset name, the last
    component of the dataset path: 128 new tokens and the fields [nl] and
    [cmd] for conala, 512 and [prompt] and [completion] for codealpaca,
    1024 and [question] and [solutions] for any other name. *)
Theorem configure_settings_by_dataset_name (a : CliArgs) :
  let args := configure a in
  dataset_name args = last_part (dataset_name_or_path a) /\
  (dataset_name args = "conala" ->
   max_new_tokens args = 128 /\
   instruction_field args = "nl" /\ reference_field args = "cmd") /\
  (dataset_name args = "codealpaca" ->
   max_new_tokens args = 512 /\
   instruction_field args = "prompt" /\ reference_field args = "completion") /\
  (dataset_name args <> "conala" -> dataset_name args <> "codealpaca" ->
   max_new_tokens args = 1024 /\
   instruction_field args = "question" /\ reference_field args = "solutions").
Proof.
  unfold configure. simpl.
  destruct (String.eqb_spec (last_part (dataset_name_or_path a)) "conala")
    as [E1|N1].
  - simpl. rewrite E1. repeat split; intros; congruence.
  - destruct (String.eqb_spec (last_part (dataset_name_or_path a)) "codealpaca")
      as [E2|N2]; simpl.
    + rewrite E2. repeat split; intros; congruence.
    + repeat split; intros; congruence.
Qed.

Example configure_conala :
  let args := configure Demo.cli_plain in
  (dataset_name args, max_new_tokens args,
   instruction_field args, reference_field args)
  = ("conala", 128, "nl", "cmd").
Proof. reflexivity. Qed.

Example configure_codealpaca :
  let args := configure
    {| model_name_or_path := "m"; peft_checkpoint_path := None;
       dataset_name_or_path := "data/codealpaca"; temperature := "0.2";
       use_icl := false; icl_seed := 42; num_icl_examples := 3;
       use_rag := false; rag_top_k := 1 |} in
  (dataset_name args, max_new_tokens args,
   instruction_field args, reference_field args)
  = ("codealpaca", 512, "prompt", "completion").
Proof. reflexivity. Qed.

Example configure_apps :
  let args := configure Demo.cli_apps in
  (dataset_name args, max_new_tokens args,
   instruction_field args, reference_field args)
  = ("apps", 1024, "question", "solutions").
Proof. reflexivity. Qed.

(** The metrics of a dataset other than apps: exact match, chrF and
    chrF++ (chrF with a word order of 2) of the responses against the
    reference column. *)
Lemma compute_metrics_scores L args responses dataset references :
  dataset_name args <> "apps" ->
  column L dataset (reference_field args) = Ok references ->
  compute_metrics L args responses dataset =
  Ok [ ("em", em_compute L responses references);
       ("chrf", chrf_compute L responses (map (fun ref => [ref]) references) None);
       ("chrf2", chrf_compute L responses (map (fun ref => [ref]) references)
                   (Some 2)) ].
Proof.
  intros Hname Hrefs. unfold compute_metrics.
  destruct (String.eqb_spec (dataset_name args) "apps") as [|_]; [contradiction|].
  now rewrite Hrefs.
Qed.

(** C3, on the apps dataset: [compute_metrics] computes nothing and
    returns the empty dictionary, whatever the responses are. *)
Theorem compute_metrics_apps_is_empty L args responses dataset :
  dataset_name args = "apps" ->
  compute_metrics L args responses dataset = Ok [].
Proof. intros H. unfold compute_metrics. now rewrite H. Qed.

Lemma compute_metrics_apps_is_empty_witness :
  compute_metrics Demo.libraries (configure Demo.cli_apps)
    ["print(a + b)"] [Demo.apps_row] = Ok [].
Proof.
  apply (compute_metrics_apps_is_empty Demo.libraries (configure Demo.cli_apps)
           ["print(a + b)"] [Demo.apps_row]).
  reflexivity.
Defined.

Lemma doc_messages_pairs docs :
  Forall (fun p : list message => length p = 2%nat) (map doc_messages docs).
Proof. induction docs; constructor; [reflexivity | assumption]. Qed.

Lemma build_knowledge_base_Ok args train docs :
  build_knowledge_base args train = Ok docs <->
  Forall2 (fun s doc =>
             columns s !! instruction_field args = Some (page_content doc) /\
             columns s !! reference_field args = Some (metadata_code doc))
    train docs.
Proof.
  unfold build_knowledge_base. rewrite for_each_Ok.
  split; intros H; (eapply Forall2_impl; [exact H|]); clear H;
    intros s [page code]; simpl; unfold getitem.
  - destruct (columns s !! instruction_field args); [|discriminate].
    destruct (columns s !! reference_field args); [|discriminate].
    simpl. intros [= -> ->]. now split.
  - intros [-> ->]. reflexivity.
Qed.

(** C4, as the code has it.  In a RAG run the index is built over the
    training split, one document per row with the instruction as page
    content and the reference as stored code.  With RAG, [prepare_input]
    returns, for each document the search returns for the sample's
    instruction, a message of role user with the page content and a
    message of role assistant with the stored code, two messages per
    document ([2 * rag_top_k] when the search returns [rag_top_k]
    documents), before the sample's messages without the final one;
    without RAG it returns the sample's messages without the final one. *)
Theorem prepare_input_rag_chat L (args : Args) (train test : list sample) :
  (use_icl (cli args) = false -> use_rag (cli args) = true ->
   forall dataset kb,
     prepare_run L args train test = Ok (dataset, kb) ->
     dataset = test /\
     exists docs,
       kb = Some (from_documents L docs) /\
       Forall2 (fun s doc =>
                  columns s !! instruction_field args = Some (page_content doc) /\
                  columns s !! reference_field args = Some (metadata_code doc))
         train docs)
  /\
  (use_rag (cli args) = true ->
   forall (s : sample) (store : VectorStore) (query : string) chat,
     columns s !! instruction_field args = Some query ->
     messages s = Some chat ->
     let retrieved := similarity_search store query (rag_top_k (cli args)) in
     exists chat_docs,
       prepare_input s (Some store) args
       = Ok (chat_docs ++ drop_last 1 chat) /\
       length chat_docs = (2 * length retrieved)%nat /\
       (Z.of_nat (length retrieved) = rag_top_k (cli args) ->
        Z.of_nat (length chat_docs) = 2 * rag_top_k (cli args)) /\
       forall i doc,
         retrieved !! i = Some doc ->
         chat_docs !! (2 * i)%nat
         = Some {| role := "user"; content := JString (page_content doc) |} /\
         chat_docs !! (2 * i + 1)%nat
         = Some {| role := "assistant";
                   content := JString (metadata_code doc) |})
  /\
  (use_rag (cli args) = false ->
   forall (s : sample) kb chat,
     messages s = Some chat ->
     prepare_input s kb args = Ok (drop_last 1 chat))
  /\
  (forall (init : list message) final, drop_last 1 (init ++ [final]) = init).
Proof.
  split; [|split; [|split]].
  - intros Hicl Hrag dataset kb Hrun.
    unfold prepare_run in Hrun. rewrite Hicl, Hrag in Hrun.
    destruct (build_knowledge_base args train) as [docs|] eqn:Hkb;
      [|discriminate].
    injection Hrun as <- <-. split; [reflexivity|]. exists docs.
    split; [reflexivity | now apply build_knowledge_base_Ok].
  - intros Hrag s store query chat Hq Hchat retrieved.
    exists (concat (map doc_messages retrieved)).
    unfold prepare_input, get_messages. rewrite Hrag, Hchat.
    rewrite (proj2 (getitem_Ok _ _ _) Hq). simpl.
    assert (Hlen : length (concat (map doc_messages retrieved))
                   = (2 * length retrieved)%nat).
    { rewrite concat_pairs_length by apply doc_messages_pairs.
      now rewrite length_map. }
    split; [reflexivity|]. split; [exact Hlen|]. split; [lia|].
    intros i doc Hi.
    apply (concat_pairs_lookup (map doc_messages retrieved));
      [apply doc_messages_pairs|].
    rewrite list_lookup_fmap, Hi. reflexivity.
  - intros Hrag s kb chat Hchat.
    unfold prepare_input, get_messages. now rewrite Hrag, Hchat.
  - intros init final. apply drop_last_one.
Qed.

Lemma prepare_input_rag_chat_witness :
  exists chat_docs,
    prepare_input (Demo.row "sum of a list xs" "sum(xs)")
      (Some (Demo.store_of
               [ {| page_content := "sort a list xs";
                    metadata_code := "xs.sort()" |};
                 {| page_content := "length of a list xs";
                    metadata_code := "len(xs)" |} ]))
      (configure Demo.cli_rag)
    = Ok (chat_docs
            ++ [ {| role := "user"; content := JString "sum of a list xs" |} ])
    /\
    Z.of_nat (length chat_docs) = 4.
Proof.
  destruct (proj1 (proj2 (prepare_input_rag_chat Demo.libraries
                            (configure Demo.cli_rag) Demo.train Demo.test))
              eq_refl
              (Demo.row "sum of a list xs" "sum(xs)")
              (Demo.store_of
                 [ {| page_content := "sort a list xs";
                      metadata_code := "xs.sort()" |};
                   {| page_content := "length of a list xs";
                      metadata_code := "len(xs)" |} ])
              "sum of a list xs" _ eq_refl eq_refl)
    as (chat_docs & Hchat & _ & Hlen & _).
  exists chat_docs. split; [exact Hchat | exact (Hlen eq_refl)].
Defined.

(** C4 as it is written fails: over a training split of one row the index
    holds one document, and with [rag_top_k] at 5 the search returns that
    one; [prepare_input] then gives 2 messages before the sample's, not
    10. *)
Lemma prepare_input_rag_chat_counterexample :
  exists store,
    prepare_run Demo.libraries (configure Demo.cli_rag_top5)
      [Demo.row "sort a list xs" "xs.sort()"] Demo.test
    = Ok (Demo.test, Some store) /\
    rag_top_k Demo.cli_rag_top5 = 5 /\
    prepare_input (Demo.row "sum of a list xs" "sum(xs)") (Some store)
      (configure Demo.cli_rag_top5)
    = Ok ([ {| role := "user"; content := JString "sort a list xs" |};
            {| role := "assistant"; content := JString "xs.sort()" |} ]
          ++ [ {| role := "user"; content := JString "sum of a list xs" |} ]) /\
    ~ (exists chat_docs : list message,
         prepare_input (Demo.row "sum of a list xs" "sum(xs)") (Some store)
           (configure Demo.cli_rag_top5)
         = Ok (chat_docs
                 ++ [ {| role := "user";
                         content := JString "sum of a list xs" |} ]) /\
         Z.of_nat (length chat_docs) = 2 * 5).
Proof.
  eexists. split; [reflexivity|]. split; [reflexivity|].
  split; [reflexivity|].
  intros (chat_docs & Hchat & Hlen).
  vm_compute in Hchat. injection Hchat as Hchat.
  apply (f_equal (@length message)) in Hchat.
  rewrite List.length_app in Hchat. simpl in Hchat. lia.
Qed.

(** C9. [main] leaves [knowledge_base_vectors] at [None] when ICL is set,
    and [prepare_input] uses it whenever RAG is set: with both set every
    sample that has the instruction column ends in the error of a method
    looked up on [None], and otherwise no sample does. *)
Theorem none_dereference_iff_icl_and_rag L (args : Args) train test dataset kb :
  prepare_run L args train test = Ok (dataset, kb) ->
  (use_icl (cli args) = true -> kb = None) /\
  (use_rag (cli args) = true ->
   forall s query,
     columns s !! instruction_field args = Some query ->
     prepare_input s None args = Raise AttributeError) /\
  (use_icl (cli args) = true -> use_rag (cli args) = true ->
   forall s query,
     columns s !! instruction_field args = Some query ->
     prepare_input s kb args = Raise AttributeError) /\
  (use_icl (cli args) && use_rag (cli args) = false ->
   forall s, prepare_input s kb args <> Raise AttributeError).
Proof.
  intros Hrun.
  assert (Hicl : use_icl (cli args) = true -> kb = None).
  { intros Hi. unfold prepare_run in Hrun. rewrite Hi in Hrun.
    destruct (build_chat_icl L args train) as [chat_icl|]; [|discriminate].
    simpl in Hrun.
    destruct (for_each (add_icl_prompt chat_icl) test); [|discriminate].
    now injection Hrun as _ <-. }
  assert (Hderef : use_rag (cli args) = true ->
            forall s query,
              columns s !! instruction_field args = Some query ->
              prepare_input s None args = Raise AttributeError).
  { intros Hr s query Hq. unfold prepare_input. rewrite Hr.
    now rewrite (proj2 (getitem_Ok _ _ _) Hq). }
  repeat split; try assumption.
  - intros Hi Hr s query Hq. rewrite (Hicl Hi). now apply (Hderef Hr s query).
  - intros Hnot s. unfold prepare_input.
    destruct (use_rag (cli args)) eqn:Hr;
      [|unfold get_messages; destruct (messages s); discriminate].
    destruct (use_icl (cli args)) eqn:Hi; [discriminate|].
    unfold prepare_run in Hrun. rewrite Hi, Hr in Hrun.
    destruct (build_knowledge_base args train); [|discriminate].
    injection Hrun as _ <-.
    unfold getitem, get_messages.
    destruct (columns s !! instruction_field args); [|discriminate].
    simpl. destruct (messages s); discriminate.
Qed.

Lemma none_dereference_iff_icl_and_rag_witness :
  prepare_input (Demo.row "sum of a list xs" "sum(xs)") None
    (configure Demo.cli_icl_rag) = Raise AttributeError.
Proof.
  refine (proj1 (proj2
    (none_dereference_iff_icl_and_rag Demo.libraries
       (configure Demo.cli_icl_rag) Demo.train Demo.test _ None _))
    eq_refl (Demo.row "sum of a list xs" "sum(xs)") "sum of a list xs" eq_refl).
  reflexivity.
Defined.

(** With both options the run of [generate] stops at its first sample. *)
Example generate_icl_and_rag :
  (letM run := prepare_run Demo.libraries (configure Demo.cli_icl_rag)
                 Demo.train Demo.test in
   generate Demo.libraries (configure Demo.cli_icl_rag) (fst run) (snd run))
  = Raise AttributeError.
Proof. reflexivity. Qed.

(** The two messages made of one ICL example. *)
Lemma chat_exemple_Ok L args example pair :
  chat_exemple L args example = Ok pair ->
  exists instruction raw reference,
    columns example !! instruction_field args = Some instruction /\
    columns example !! reference_field args = Some raw /\
    (dataset_name args = "apps" ->
     exists parsed, json_loads L raw = Ok parsed /\
                    getitem0 parsed = Ok reference) /\
    (dataset_name args <> "apps" -> reference = JString raw) /\
    pair = [user_message (JString instruction); assistant_message reference].
Proof.
  unfold chat_exemple, getitem.
  destruct (columns example !! reference_field args) as [raw|];
    [|destruct (String.eqb (dataset_name args) "apps"); discriminate].
  destruct (String.eqb_spec (dataset_name args) "apps") as [Happs|Happs]; simpl.
  - destruct (json_loads L raw) as [parsed|] eqn:Hp; [|discriminate]. simpl.
    destruct (getitem0 parsed) as [reference|] eqn:Hg; [|discriminate]. simpl.
    destruct (columns example !! instruction_field args) as [instruction|];
      [|discriminate].
    simpl. intros [= <-]. exists instruction, raw, reference.
    repeat split; try reflexivity; [|contradiction].
    intros _. now exists parsed.
  - destruct (columns example !! instruction_field args) as [instruction|];
      [|discriminate].
    simpl. intros [= <-]. exists instruction, raw, (JString raw).
    repeat split; try reflexivity. contradiction.
Qed.

Lemma select_range_Ok {A} n (l examples : list A) :
  0 <= n -> select_range n l = Ok examples ->
  examples = take (Z.to_nat n) l /\
  (l <> [] -> Z.of_nat (length examples) = n).
Proof.
  intros Hn. unfold select_range. destruct l as [|x l].
  - intros [= <-]. split; [now rewrite take_nil | contradiction].
  - destruct (Z.ltb_spec (Z.of_nat (length (x :: l))) n) as [|Hle];
      [discriminate|].
    intros [= <-]. split; [reflexivity|]. intros _. rewrite length_take. lia.
Qed.

Lemma select_range_take {A} n (l : list A) :
  n <= Z.of_nat (length l) -> select_range n l = Ok (take (Z.to_nat n) l).
Proof.
  intros Hn. unfold select_range. destruct l as [|x l]; [now rewrite take_nil|].
  destruct (Z.ltb_spec (Z.of_nat (length (x :: l))) n) as [|_]; [lia|].
  reflexivity.
Qed.

(** What [v[0]] is: the first item of a list, the first character of a
    string. *)
Lemma getitem0_Ok parsed reference :
  getitem0 parsed = Ok reference ->
  (exists rest, parsed = JList (reference :: rest)) \/
  (exists c s, parsed = JString (String c s) /\
               reference = JString (String c (leading_continuations s))).
Proof.
  destruct parsed as [| | |[|c s]|[|x rest]|]; simpl; try discriminate;
    intros [= <-]; [right; now exists c, s | left; now exists rest].
Qed.

(** The continuation bytes a text starts with, told apart from the rest:
    all of them are continuation bytes and the byte after them is not. *)
Lemma leading_continuations_split s :
  exists rest,
    s = leading_continuations s +:+ rest /\
    Forall (fun b => is_continuation b = true)
      (list_ascii_of_string (leading_continuations s)) /\
    (forall b rest', rest = String b rest' -> is_continuation b = false).
Proof.
  induction s as [|c s (rest & Hs & Hall & Hrest)].
  - exists EmptyString. repeat split; [constructor | discriminate].
  - simpl. destruct (is_continuation c) eqn:Hc.
    + exists rest. repeat split.
      * rewrite str_app_cons. now f_equal.
      * simpl. now constructor.
      * exact Hrest.
    + exists (String c s). repeat split; [constructor|].
      intros b rest' [= <- _]. exact Hc.
Qed.

(** [add_icl_prompt] puts the ICL messages before those of the example,
    which has to have messages. *)
Lemma add_icl_prompt_Ok chat_icl example example' :
  add_icl_prompt chat_icl example = Ok example' <->
  exists chat,
    messages example = Some chat /\
    example' = {| columns := columns example;
                  messages := Some (chat_icl ++ chat) |}.
Proof.
  unfold add_icl_prompt, get_messages.
  destruct (messages example) as [chat|]; simpl; split.
  - intros [= <-]. now exists chat.
  - intros (chat' & [= <-] & ->). reflexivity.
  - discriminate.
  - intros (chat' & Hc & _). discriminate.
Qed.

(** The examples can be built when the training split has rows, the seed
    is not negative, the training split is large enough and the chosen rows have the two columns (for
    apps, with a reference that parses to a value with a first element). *)
Lemma build_chat_icl_succeeds L args train :
  train <> [] ->
  0 <= icl_seed (cli args) ->
  num_icl_examples (cli args)
    <= Z.of_nat (length (shuffle L (icl_seed (cli args)) train)) ->
  (forall example,
     example ∈ take (Z.to_nat (num_icl_examples (cli args)))
                 (shuffle L (icl_seed (cli args)) train) ->
     is_Some (columns example !! instruction_field args) /\
     exists raw, columns example !! reference_field args = Some raw /\
       (dataset_name args = "apps" ->
        exists parsed reference, json_loads L raw = Ok parsed /\
                                 getitem0 parsed = Ok reference)) ->
  exists chat_icl, build_chat_icl L args train = Ok chat_icl.
Proof.
  intros Htrain Hseed Hn Hrows. unfold build_chat_icl.
  assert (Hs : dataset_shuffle L (icl_seed (cli args)) train
               = Ok (shuffle L (icl_seed (cli args)) train)).
  { unfold dataset_shuffle. destruct train; [contradiction|].
    destruct (Z.ltb_spec (icl_seed (cli args)) 0) as [|_];
      [lia | reflexivity]. }
  rewrite Hs. simpl.
  rewrite select_range_take by exact Hn. simpl.
  destruct (for_each_succeeds (chat_exemple L args)
              (take (Z.to_nat (num_icl_examples (cli args)))
                 (shuffle L (icl_seed (cli args)) train))) as [pairs ->].
  - intros example Hin.
    destruct (Hrows example Hin) as ([instruction Hi] & raw & Hr & Happs).
    unfold chat_exemple, getitem. rewrite Hr, Hi.
    destruct (String.eqb_spec (dataset_name args) "apps") as [E|_]; simpl.
    + destruct (Happs E) as (parsed & reference & -> & Hg). simpl.
      rewrite Hg. simpl. now eexists.
    + now eexists.
  - now eexists.
Qed.

(** C5, as the code has it.  With ICL, a count of examples that is not
    negative and examples that are built without an exception (so the seed
    is not negative when the training split has rows), [chat_icl] is made
    of the first [num_icl_examples] rows of the shuffled training split,
    two messages for each: a message
    of role user with the instruction and a message of role assistant with
    the reference, which for apps is the first element of the parsed JSON
    of the reference column (the first item of a list, the first character
    of a string) and otherwise the column as it is.  It has
    [2 * num_icl_examples] messages when the training split has rows, and
    the dataset [main] goes on with is the test split with this same list
    before the messages of every sample. *)
Theorem icl_examples_are_prepended L (args : Args) train test chat_icl :
  use_icl (cli args) = true ->
  0 <= num_icl_examples (cli args) ->
  build_chat_icl L args train = Ok chat_icl ->
  let shuffled :=
    match train with
    | [] => []
    | _ :: _ => shuffle L (icl_seed (cli args)) train
    end in
  let examples := take (Z.to_nat (num_icl_examples (cli args))) shuffled in
  (train <> [] -> 0 <= icl_seed (cli args)) /\
  length chat_icl = (2 * length examples)%nat /\
  (shuffled <> [] ->
   Z.of_nat (length examples) = num_icl_examples (cli args) /\
   Z.of_nat (length chat_icl) = 2 * num_icl_examples (cli args)) /\
  (forall i example,
     examples !! i = Some example ->
     exists instruction raw reference,
       columns example !! instruction_field args = Some instruction /\
       columns example !! reference_field args = Some raw /\
       (dataset_name args = "apps" ->
        exists parsed,
          json_loads L raw = Ok parsed /\
          ((exists rest, parsed = JList (reference :: rest)) \/
           (exists c cont rest,
              parsed = JString (String c (cont +:+ rest)) /\
              reference = JString (String c cont) /\
              Forall (fun b => is_continuation b = true)
                (list_ascii_of_string cont) /\
              (forall b rest', rest = String b rest' ->
                               is_continuation b = false)))) /\
       (dataset_name args <> "apps" -> reference = JString raw) /\
       chat_icl !! (2 * i)%nat
       = Some {| role := "user"; content := JString instruction |} /\
       chat_icl !! (2 * i + 1)%nat
       = Some {| role := "assistant"; content := reference |}) /\
  (forall dataset kb,
     prepare_run L args train test = Ok (dataset, kb) ->
     kb = None /\
     Forall2 (fun s s' =>
                exists chat,
                  messages s = Some chat /\
                  s' = {| columns := columns s;
                          messages := Some (chat_icl ++ chat) |})
       test dataset) /\
  ((forall s, s ∈ test -> is_Some (messages s)) ->
   exists dataset, prepare_run L args train test = Ok (dataset, None)).
Proof.
  intros Hicl Hn Hbuild shuffled examples.
  assert (Hrun : prepare_run L args train test
                 = letM dataset := for_each (add_icl_prompt chat_icl) test in
                   Ok (dataset, None)).
  { unfold prepare_run. now rewrite Hicl, Hbuild. }
  assert (Hshuffle : (train <> [] -> 0 <= icl_seed (cli args)) /\
            (letM selected := select_range (num_icl_examples (cli args))
                                shuffled in
             letM pairs := for_each (chat_exemple L args) selected in
             Ok (concat pairs)) = Ok chat_icl).
  { unfold build_chat_icl, dataset_shuffle in Hbuild. unfold shuffled.
    destruct train as [|row train]; [split; [contradiction | exact Hbuild]|].
    destruct (Z.ltb_spec (icl_seed (cli args)) 0) as [|Hseed];
      [discriminate|].
    split; [intros _; exact Hseed | exact Hbuild]. }
  clear Hbuild. destruct Hshuffle as [Hseed Hbuild].
  destruct (select_range (num_icl_examples (cli args)) shuffled)
    as [selected|] eqn:Hsel; [|discriminate].
  simpl in Hbuild.
  destruct (for_each (chat_exemple L args) selected) as [pairs|] eqn:Hpairs;
    [|discriminate].
  injection Hbuild as <-.
  destruct (select_range_Ok _ _ _ Hn Hsel) as [Hselected Hlen].
  fold examples in Hselected. subst selected.
  apply for_each_Ok in Hpairs.
  assert (Hshape : Forall (fun p : list message => length p = 2%nat) pairs).
  { apply Forall_forall. intros p Hp.
    apply list_elem_of_lookup in Hp as [i Hi].
    destruct (Forall2_lookup_r _ _ _ _ _ Hpairs Hi) as (e & _ & He).
    apply chat_exemple_Ok in He as (? & ? & ? & _ & _ & _ & _ & ->).
    reflexivity. }
  assert (Hcount : length (concat pairs) = (2 * length examples)%nat).
  { rewrite concat_pairs_length by assumption.
    now rewrite <- (Forall2_length _ _ _ Hpairs). }
  split; [exact Hseed|]. split; [exact Hcount|].
  split; [intros Hne; split; [now apply Hlen | rewrite Hcount; specialize (Hlen Hne); lia]|].
  split; [|split].
  - intros i example Hi.
    destruct (Forall2_lookup_l _ _ _ _ _ Hpairs Hi) as (p & Hp & He).
    apply chat_exemple_Ok in He
      as (instruction & raw & reference & H1 & H2 & H3 & H4 & ->).
    exists instruction, raw, reference.
    destruct (concat_pairs_lookup pairs i _ _ Hshape Hp) as [Hu Ha].
    split; [exact H1|]. split; [exact H2|]. split; [|split; [exact H4|]].
    + intros Happs. destruct (H3 Happs) as (parsed & Hparsed & Hfirst).
      exists parsed. split; [exact Hparsed|].
      apply getitem0_Ok in Hfirst as [Hlist|(c & s & -> & ->)];
        [now left | right].
      destruct (leading_continuations_split s) as (rest & Hs & Hall & Hrest).
      exists c, (leading_continuations s), rest.
      split; [now rewrite <- Hs|]. split; [reflexivity|]. now split.
    + split; [exact Hu | exact Ha].
  - intros dataset kb Hds. rewrite Hrun in Hds.
    destruct (for_each (add_icl_prompt (concat pairs)) test)
      as [dataset'|] eqn:Hmap; [|discriminate].
    injection Hds as <- <-. split; [reflexivity|].
    apply for_each_Ok in Hmap.
    eapply Forall2_impl; [exact Hmap|].
    intros s s' Hs. now apply add_icl_prompt_Ok.
  - intros Hmsgs. rewrite Hrun.
    destruct (for_each_succeeds (add_icl_prompt (concat pairs)) test)
      as [dataset ->].
    + intros s Hs. destruct (Hmsgs s Hs) as [chat Hchat].
      eexists. apply add_icl_prompt_Ok. now exists chat.
    + now eexists.
Qed.

Lemma icl_examples_are_prepended_witness :
  Z.of_nat (length
    [ {| role := "user"; content := JString "length of a list xs" |};
      {| role := "assistant"; content := JString "len(xs)" |};
      {| role := "user"; content := JString "reverse a list xs" |};
      {| role := "assistant"; content := JString "xs.reverse()" |} ]) = 2 * 2 /\
  exists dataset,
    prepare_run Demo.libraries (configure Demo.cli_icl) Demo.train Demo.test
    = Ok (dataset, None).
Proof.
  destruct (icl_examples_are_prepended Demo.libraries
              (configure Demo.cli_icl) Demo.train Demo.test
              [ {| role := "user"; content := JString "length of a list xs" |};
                {| role := "assistant"; content := JString "len(xs)" |};
                {| role := "user"; content := JString "reverse a list xs" |};
                {| role := "assistant"; content := JString "xs.reverse()" |} ]
              eq_refl ltac:(discriminate) eq_refl)
    as (_ & _ & Hlen & _ & _ & Hrun).
  split.
  - apply Hlen. discriminate.
  - apply Hrun. intros s Hs.
    repeat (apply elem_of_cons in Hs as [->|Hs]; [now eexists|]).
    inversion Hs.
Defined.

(** C5 as it is written fails: with a negative seed the shuffle is
    refused and no list is built; and a negative count of examples gives
    the empty list, which has not twice that many messages. *)
Lemma icl_examples_are_prepended_counterexample :
  use_icl Demo.cli_negative_seed = true /\
  icl_seed Demo.cli_negative_seed = -1 /\
  prepare_run Demo.libraries (configure Demo.cli_negative_seed)
    Demo.train Demo.test = Raise ValueError /\
  build_chat_icl Demo.libraries
    (configure
       {| model_name_or_path := "bigcode/starcoder";
          peft_checkpoint_path := None;
          dataset_name_or_path := "datasets/conala";
          temperature := "0.2";
          use_icl := true; icl_seed := 42; num_icl_examples := -1;
          use_rag := false; rag_top_k := 1 |})
    Demo.train = Ok [] /\
  Z.of_nat (length (@nil message)) <> 2 * -1.
Proof. repeat split; try reflexivity. discriminate. Qed.

(** On apps the reference of an example is the first solution of the
    JSON list in its reference column. *)
Example chat_exemple_apps :
  chat_exemple Demo.libraries (configure Demo.cli_apps) Demo.apps_row
  = Ok [ {| role := "user";
            content := JString "print the sum of two numbers" |};
         {| role := "assistant"; content := JString "print(a + b)" |} ].
Proof. reflexivity. Qed.

(** The first character of a string of two bytes for one character
    (an e with an acute accent, then a t) is that character. *)
Example getitem0_first_character :
  getitem0 (JString (String "195" (String "169" "t")))
  = Ok (JString (String "195" (String "169" EmptyString))).
Proof. reflexivity. Qed.

(** ** [generate.py]: the files of the results *)

Lemma lines_go_line cur t rest :
  ~ contains newline_text t ->
  lines_go cur (t +:+ String newline rest)
  = (cur +:+ t) :: lines_go EmptyString rest.
Proof.
  revert cur. induction t as [|c t IH]; intros cur Hfree.
  - rewrite str_app_nil_l, str_app_nil_r. reflexivity.
  - rewrite str_app_cons. simpl.
    destruct (Ascii.eqb_spec c newline) as [->|Hc].
    + exfalso. apply Hfree. now exists EmptyString, t.
    + rewrite IH.
      * now rewrite str_app_assoc.
      * intros (pre & post & ->). apply Hfree.
        now exists (String c pre), post.
Qed.

(** Read line by line, the responses file gives the JSON objects of the
    responses, one per line and in their order. *)
Lemma lines_of_responses L responses :
  Forall (fun r => ~ contains newline_text (json_dumps L (response_object r)))
    responses ->
  lines (join (map (response_line L) responses))
  = map (fun r => json_dumps L (response_object r)) responses.
Proof.
  unfold lines. induction 1 as [|r responses Hr _ IH]; [reflexivity|].
  simpl. unfold response_line at 1. unfold newline_text at 1.
  rewrite str_app_assoc, str_app_cons, str_app_nil_l.
  rewrite lines_go_line by exact Hr.
  rewrite str_app_nil_l. f_equal. exact IH.
Qed.

Lemma paths_differ args : metrics_path args <> responses_path args.
Proof.
  unfold metrics_path, responses_path. intros H.
  apply String.app_inj in H. discriminate H.
Qed.

(** The keys [main] adds are new to what [compute_metrics] returns. *)
Lemma final_metrics_appends L args responses dataset metrics m :
  compute_metrics L args responses dataset = Ok metrics ->
  final_metrics metrics m
  = metrics ++
    [ ("init_gpu_memory", JString (init_gpu_memory m +:+ " MB"));
      ("peak_gpu_memory", JString (peak_gpu_memory m +:+ " MB"));
      ("total_execution_time", JString (total_execution_time m +:+ " seconds")) ].
Proof.
  unfold compute_metrics.
  destruct (String.eqb (dataset_name args) "apps").
  - now intros [= <-].
  - destruct (column L dataset (reference_field args)); [|discriminate].
    now intros [= <-].
Qed.

(** C7, as the code has it.  When the generation and then the computation
    of the metrics end without an exception, [main] ends with two files
    written.  The responses file holds, for each response [r] in the order
    of generation, the JSON text of the object with the one key
    [response] and the value [r], followed by a newline, so that its lines
    are these texts, one per response.  The metrics file, another file,
    holds the JSON of the metrics with the entries [init_gpu_memory],
    [peak_gpu_memory] and [total_execution_time] added.  Both are in the
    results directory of the adapter when a non-empty PEFT checkpoint path
    is given, and in [runs/<model_name>/results] when none is. *)
Theorem main_writes_responses_and_metrics L (a : CliArgs) train test m
    (files : gmap string string) dataset kb responses metrics :
  let args := configure a in
  prepare_run L args train test = Ok (dataset, kb) ->
  generate L args dataset kb = Ok responses ->
  compute_metrics L args responses dataset = Ok metrics ->
  exists files' content,
    main L a train test m files = Ok files' /\
    files' !! responses_path args = Some content /\
    content
    = join (map (fun r => json_dumps L (JDict [("response", JString r)])
                            +:+ String newline EmptyString) responses) /\
    (Forall (fun r => ~ contains (String newline EmptyString)
                          (json_dumps L (JDict [("response", JString r)])))
       responses ->
     lines content
     = map (fun r => json_dumps L (JDict [("response", JString r)])) responses) /\
    files' !! metrics_path args
    = Some (json_dumps L (JDict (metrics ++
        [ ("init_gpu_memory", JString (init_gpu_memory m +:+ " MB"));
          ("peak_gpu_memory", JString (peak_gpu_memory m +:+ " MB"));
          ("total_execution_time",
           JString (total_execution_time m +:+ " seconds")) ]))) /\
    metrics_path args <> responses_path args /\
    (forall path, path <> metrics_path args -> path <> responses_path args ->
                  files' !! path = files !! path) /\
    metrics_path args
    = output_dir args +:+ "/metrics_" +:+ file_suffix args +:+ ".jsonl" /\
    responses_path args
    = output_dir args +:+ "/responses_" +:+ file_suffix args +:+ ".jsonl" /\
    (forall p, peft_checkpoint_path a = Some p -> p <> EmptyString ->
               output_dir args = p +:+ "/results") /\
    (peft_checkpoint_path a = None ->
     output_dir args
     = "runs/" +:+ last_part (model_name_or_path a) +:+ "/results").
Proof.
  intros args Hrun Hgen Hmet.
  exists (write_results L args (final_metrics metrics m) responses files).
  exists (join (map (response_line L) responses)).
  split; [|split; [|split; [|split; [|split; [|split; [|split]]]]]].
  - unfold main, tracked_generate. fold args. rewrite Hrun. simpl.
    rewrite Hgen. simpl. now rewrite Hmet.
  - unfold write_results. apply lookup_insert_eq.
  - reflexivity.
  - apply (lines_of_responses L responses).
  - unfold write_results.
    rewrite lookup_insert_ne by (apply not_eq_sym, paths_differ).
    rewrite lookup_insert_eq.
    now rewrite (final_metrics_appends _ _ _ _ _ m Hmet).
  - apply paths_differ.
  - intros path H1 H2. unfold write_results.
    rewrite lookup_insert_ne by now apply not_eq_sym.
    apply lookup_insert_ne. now apply not_eq_sym.
  - repeat split.
    + intros p Hp Hne. unfold output_dir, args.
      rewrite cli_configure, Hp.
      destruct p; [contradiction | reflexivity].
    + intros Hnone. unfold output_dir, args.
      rewrite cli_configure, Hnone. f_equal.
      unfold configure.
      destruct (String.eqb _ "conala"); [reflexivity|].
      destruct (String.eqb _ "codealpaca"); reflexivity.
Qed.

Lemma main_writes_responses_and_metrics_witness :
  exists files',
    main Demo.libraries Demo.cli_icl Demo.train Demo.test Demo.measurements ∅
    = Ok files' /\
    Generate.lines
      <$> files' !! "runs/lora/results/responses_conala_t0.2_icl_n2_s42.jsonl"
    = Some (map (fun r => json_dumps Demo.libraries
                            (JDict [("response", JString r)]))
              [ "print(5)" +:+ String newline "# done";
                "print(5)" +:+ String newline "# done" ]).
Proof.
  edestruct (main_writes_responses_and_metrics Demo.libraries Demo.cli_icl
               Demo.train Demo.test Demo.measurements ∅)
    as (files' & content & Hmain & Hfile & _ & Hlines & _);
    [reflexivity | reflexivity | reflexivity |].
  exists files'. split; [exact Hmain|].
  change (responses_path (configure Demo.cli_icl))
    with "runs/lora/results/responses_conala_t0.2_icl_n2_s42.jsonl" in Hfile.
  rewrite Hfile. simpl. f_equal. apply Hlines.
  repeat constructor; apply str_in_false; reflexivity.
Defined.

(** C7 as it is written fails: the generation can end well and [main]
    still write no file.  With a dataset path that ends with a slash the
    reference column is [solutions], which the CoNaLa test split does not
    have: the responses are all generated, the computation of the metrics
    raises the error of the column, and [main] ends there. *)
Lemma main_writes_responses_and_metrics_counterexample :
  prepare_run Demo.libraries (configure Demo.cli_trailing_slash)
    Demo.train Demo.test = Ok (Demo.test, None) /\
  generate Demo.libraries (configure Demo.cli_trailing_slash) Demo.test None
  = Ok [ "print(1)" +:+ String newline "# done";
         "print(1)" +:+ String newline "# done" ] /\
  main Demo.libraries Demo.cli_trailing_slash Demo.train Demo.test
    Demo.measurements ∅
  = Raise (KeyError "Column solutions not in the dataset").
Proof. repeat split; reflexivity. Qed.

End GenerateFacts.

(** ** [utils.py] *)

Module UtilsFacts.
Import Utils.

(** C10. The examples [load_odex_test_dataset] returns are the examples
    of the ODEX test split whose intent is not one of the [nl] values of
    the CoNaLa training split: none of them has an intent that occurs
    there. *)
Theorem odex_test_has_no_conala_intent (dataset : list odex_row)
    (conala_nl : list (option string)) (example : odex_row) :
  example ∈ load_odex_test_dataset dataset conala_nl <->
  example ∈ dataset /\ intent example ∉ conala_nl.
Proof.
  unfold load_odex_test_dataset. rewrite list_elem_of_filter. tauto.
Qed.

Example load_odex_example :
  load_odex_test_dataset
    [ {| intent := Some "sort a list xs"; other_columns := ∅ |};
      {| intent := Some "sum of a list xs"; other_columns := ∅ |} ]
    [ Some "reverse a list xs"; None; Some "sort a list xs" ]
  = [ {| intent := Some "sum of a list xs"; other_columns := ∅ |} ].
Proof. reflexivity. Qed.

End UtilsFacts.

(** ** More on [re.split] and [remove_last_block] *)

Module SplitFacts.
Import Py StrFacts Re ReFacts Test BlockFacts.

(** The pieces of a scan, for alternatives that are not empty: glued
    together they are the text scanned, there is an odd number of them,
    and those at the odd places are matches. *)
Lemma scan_pieces alts :
  (forall m, m ∈ alts -> m <> EmptyString) ->
  forall n seg s,
    (String.length s <= n)%nat ->
    join (split_scan alts 0 seg s) = seg +:+ s /\
    exists k,
      length (split_scan alts 0 seg s) = (2 * k + 1)%nat /\
      forall i piece,
        split_scan alts 0 seg s !! (2 * i + 1)%nat = Some piece ->
        piece ∈ alts.
Proof.
  intros Hne. induction n as [|n IH]; intros seg s Hlen.
  - destruct s; [|simpl in Hlen; lia]. simpl. rewrite str_app_nil_r.
    split; [reflexivity|]. exists 0%nat. split; [reflexivity|].
    intros i piece Hi.
    rewrite lookup_ge_None_2 in Hi by (simpl; lia). discriminate.
  - destruct s as [|c s].
    { simpl. rewrite str_app_nil_r. split; [reflexivity|].
      exists 0%nat. split; [reflexivity|].
      intros i piece Hi.
      rewrite lookup_ge_None_2 in Hi by (simpl; lia). discriminate. }
    destruct (match_alt alts (String c s)) as [m0|] eqn:Hm.
    + destruct (match_alt_Some _ _ _ Hm) as [Hin Hsw].
      apply startswith_spec in Hsw as [rest Hrest].
      pose proof (Hne _ Hin) as Hm0.
      rewrite Hrest in Hm |- *. rewrite scan_match by assumption.
      assert (Hlen' : (String.length rest <= n)%nat).
      { apply (f_equal String.length) in Hrest.
        rewrite str_length_app in Hrest. simpl in Hrest, Hlen.
        destruct m0; [contradiction | simpl in Hrest; lia]. }
      destruct (IH EmptyString rest Hlen') as (Hj & k & Hk & Hodd).
      split.
      * simpl. rewrite Hj. reflexivity.
      * exists (S k). split; [simpl; rewrite Hk; lia|].
        intros [|i] piece Hi.
        -- injection Hi as <-. exact Hin.
        -- apply (Hodd i).
           replace (2 * S i + 1)%nat with (S (S (2 * i + 1))) in Hi by lia.
           exact Hi.
    + rewrite scan_no_match by assumption.
      destruct (IH (seg +:+ String c EmptyString) s ltac:(simpl in Hlen; lia))
        as (Hj & Hk).
      split; [|exact Hk]. rewrite Hj. apply str_app_assoc.
Qed.

Lemma markers_not_empty m : m ∈ HUMAN_EVAL_EOF_STRINGS -> m <> EmptyString.
Proof. intros H. destruct (markers_shape m H) as (t & -> & _). discriminate. Qed.

(** X1. The split that [remove_last_block] works on loses nothing: the pieces
    joined are the string, they are text, marker, text, ..., text, an odd
    number of pieces with a marker at every odd place. *)
Theorem split_pieces_rejoin s :
  join (split HUMAN_EVAL_EOF_STRINGS s) = s /\
  (exists k, length (split HUMAN_EVAL_EOF_STRINGS s) = (2 * k + 1)%nat) /\
  (forall i piece,
     split HUMAN_EVAL_EOF_STRINGS s !! (2 * i + 1)%nat = Some piece ->
     piece ∈ HUMAN_EVAL_EOF_STRINGS).
Proof.
  destruct (scan_pieces HUMAN_EVAL_EOF_STRINGS markers_not_empty
              (String.length s) EmptyString s (Nat.le_refl _))
    as (Hj & k & Hk & Hodd).
  split; [exact Hj|]. split; [now exists k | exact Hodd].
Qed.

(** X2. [remove_last_block] only cuts at the end: what it returns is a prefix
    of its argument, and a proper one unless the argument is empty. *)
Theorem remove_last_block_is_proper_prefix s :
  exists rest,
    s = remove_last_block s +:+ rest /\
    (s <> EmptyString -> rest <> EmptyString).
Proof.
  unfold remove_last_block, split.
  destruct (occurs HUMAN_EVAL_EOF_STRINGS s) eqn:Hocc.
  - destruct (scan_last_occurrence _ markers_shape (String.length s)
                EmptyString s (Nat.le_refl _) Hocc)
      as (pieces & pre & m & post & Hs & Hj & Heq & Hin & _).
    rewrite Hs, drop_last_two, Hj, str_app_nil_l.
    exists (m +:+ post). split; [exact Heq|].
    intros _ H. apply (markers_not_empty m Hin).
    destruct m; [reflexivity | rewrite str_app_cons in H; discriminate].
  - rewrite (scan_no_occurrence HUMAN_EVAL_EOF_STRINGS) by exact Hocc.
    exists s. split; [reflexivity | auto].
Qed.

(** X3. The case the source expects (its comment: the last piece should be
    empty): for a text that ends with a marker, that marker is what is
    removed. *)
Theorem remove_last_block_final_marker body m :
  m ∈ HUMAN_EVAL_EOF_STRINGS ->
  remove_last_block (body +:+ m) = body.
Proof.
  intros Hm.
  assert (Hocc : occurs HUMAN_EVAL_EOF_STRINGS (body +:+ m) = true).
  { apply occurs_true. exists m. split; [exact Hm|].
    exists body, EmptyString. now rewrite str_app_nil_r. }
  destruct (scan_last_occurrence _ markers_shape (String.length (body +:+ m))
              EmptyString _ (Nat.le_refl _) Hocc)
    as (pieces & pre & m' & post & Hs & Hj & Heq & Hin & Hpost).
  unfold remove_last_block, split.
  rewrite Hs, drop_last_two, Hj, str_app_nil_l.
  assert (Heq' : pre +:+ m' +:+ post = body +:+ m +:+ EmptyString).
  { now rewrite str_app_nil_r. }
  pose proof (last_occurrence_is_last _ markers_shape _ _ _ _ _ _
                Hin Hpost Hm Heq') as Hle.
  symmetry in Heq'.
  destruct (str_app_split _ _ _ _ Heq' Hle) as (e & -> & He).
  destruct e as [|a e]; [now rewrite str_app_nil_r|].
  exfalso.
  destruct (no_overlap _ markers_shape m EmptyString (String a e) m' post
              Hm Hin ltac:(discriminate) He) as [e' He'].
  apply (f_equal String.length) in He.
  rewrite He', !str_length_app in He. simpl in He.
  pose proof (markers_not_empty m' Hin) as Hne.
  destruct m'; [contradiction | simpl in He; lia].
Qed.

Lemma remove_last_block_final_marker_witness :
  remove_last_block ("    return x" +:+ String newline "def")
  = "    return x".
Proof.
  apply (remove_last_block_final_marker "    return x" (String newline "def")).
  unfold HUMAN_EVAL_EOF_STRINGS. right. left.
Defined.

End SplitFacts.

(** ** More on [test.py]: the criterion, the special tokens, the export *)

Module HarnessFacts.
Import Py StrFacts Test.

(** X4. A batch made of two batches is done when both are, and the empty batch
    is done. *)
Theorem call_of_joined_batches self (rows rows' : list (list Z)) :
  call self (rows ++ rows') = call self rows && call self rows' /\
  call self [] = true.
Proof.
  split; [|reflexivity].
  unfold call, batch_decode, all. rewrite !map_app. apply forallb_app.
Qed.

(** X5. Without end-of-function strings the criterion never stops a batch that
    has a row, and with the empty string among them it always stops. *)
Theorem call_with_degenerate_strings self (input_ids : list (list Z)) :
  (eof_strings self = [] -> input_ids <> [] -> call self input_ids = false) /\
  (EmptyString ∈ eof_strings self -> call self input_ids = true).
Proof.
  split.
  - intros Hnone Hrows. destruct input_ids as [|row rows]; [contradiction|].
    unfold call. rewrite Hnone. reflexivity.
  - intros Hin. apply TestFacts.call_spec. intros row _.
    exists EmptyString. split; [exact Hin|].
    exists EmptyString, (decode (tokenizer self)
                           (slice_from (start_length self) row)).
    reflexivity.
Qed.

(** X6. The ids after [load_model_and_tokenizer]: the tokenizer is left
    without a pad token only when it was loaded with neither a pad nor an
    end-of-sequence token and the model is not an InCoder; an InCoder
    tokenizer gets the ids 1 and 2; the configuration of the model is
    changed only when the tokenizer had no pad token, and then its pad
    token is its own end-of-sequence token. *)
Theorem special_tokens_after_loading model_name (tok config : TokenIds) :
  let ids := special_tokens model_name tok config in
  (pad_token_id (fst ids) = None <->
   pad_token_id tok = None /\ eos_token_id tok = None /\
   str_in "incoder" model_name = false) /\
  (str_in "incoder" model_name = true ->
   fst ids = {| pad_token_id := Some 1; eos_token_id := Some 2 |}) /\
  (str_in "incoder" model_name = false -> is_Some (pad_token_id tok) ->
   fst ids = tok) /\
  (is_Some (pad_token_id tok) -> snd ids = config) /\
  (pad_token_id tok = None ->
   pad_token_id (snd ids) = eos_token_id config /\
   eos_token_id (snd ids) = eos_token_id config).
Proof.
  unfold special_tokens, default_pad_token, incoder_tokens.
  destruct tok as [[pad|] eos]; destruct (str_in "incoder" model_name);
    simpl; repeat split; try congruence; try tauto;
    try (intros [? [? ?]]; congruence);
    try (intros _ [? ?]; congruence); try (intros [? ?]; congruence).
Qed.

Example special_tokens_codegen :
  special_tokens "codegen-350M-mono"
    {| pad_token_id := None; eos_token_id := Some 50256 |}
    {| pad_token_id := None; eos_token_id := Some 50256 |}
  = ({| pad_token_id := Some 50256; eos_token_id := Some 50256 |},
     {| pad_token_id := Some 50256; eos_token_id := Some 50256 |}).
Proof. reflexivity. Qed.

(** A text with its newlines replaced holds none. *)
Lemma replace_char_free old new s :
  old <> new ->
  ~ contains (String old EmptyString) (replace_char old new s).
Proof.
  intros Hne. apply str_in_false.
  induction s as [|c s IH]; [reflexivity|].
  simpl replace_char. rewrite str_in_unfold, IH. simpl.
  destruct (Ascii.eqb_spec c old) as [->|Hc].
  - destruct (Ascii.eqb_spec old new); [contradiction | reflexivity].
  - destruct (Ascii.eqb_spec old c); [congruence | reflexivity].
Qed.

Lemma replace_char_length old new s :
  String.length (replace_char old new s) = String.length s.
Proof. induction s as [|c s IH]; simpl; congruence. Qed.

(** A file written as lines without a newline in them reads back as
    these lines. *)
Lemma lines_of_joined (texts : list string) :
  Forall (fun t => ~ contains Generate.newline_text t) texts ->
  Generate.lines
    (join (map (fun t => t +:+ String newline EmptyString) texts))
  = texts.
Proof.
  unfold Generate.lines. induction 1 as [|t texts Ht _ IH]; [reflexivity|].
  simpl. rewrite str_app_assoc, str_app_cons, str_app_nil_l.
  rewrite GenerateFacts.lines_go_line by exact Ht.
  rewrite str_app_nil_l. f_equal. exact IH.
Qed.

Lemma fst_zip_take {A B} (l : list A) (k : list B) :
  (zip l k).*1 = take (length k) l.
Proof.
  revert k. induction l as [|x l IH]; intros [|y k]; simpl; try reflexivity.
  now rewrite IH.
Qed.

Lemma snd_zip_take {A B} (l : list A) (k : list B) :
  (zip l k).*2 = take (length l) k.
Proof.
  revert k. induction l as [|x l IH]; intros [|y k]; simpl; try reflexivity.
  now rewrite IH.
Qed.

Lemma take_eq_min {A} (l : list A) a b :
  (a `min` length l)%nat = (b `min` length l)%nat -> take a l = take b l.
Proof.
  intros H.
  transitivity (take (a `min` length l) l).
  - rewrite <- take_take. now rewrite firstn_all.
  - rewrite H, <- take_take. now rewrite firstn_all.
Qed.

(** X7. The export of [test_conala_code_generation]: with [n] the least of
    the numbers of predictions, of references and of rows of the test
    split, the two files have [n] lines each, and line [i] of one is the
    prediction [i], line [i] of the other the reference [i], with spaces
    for their newlines. *)
Theorem export_files_are_aligned {Row} (run_dir : string)
    (predictions references : list string) (test_dataset : list Row)
    (files : gmap string string) :
  let n := (length predictions `min`
              (length references `min` length test_dataset))%nat in
  let files' :=
    export_predictions run_dir predictions references test_dataset files in
  exists fpred fref,
    files' !! (run_dir +:+ "/predictions.txt") = Some fpred /\
    files' !! (run_dir +:+ "/references.txt") = Some fref /\
    Generate.lines fpred
    = map (replace_char newline " ") (take n predictions) /\
    Generate.lines fref
    = map (replace_char newline " ") (take n references) /\
    length (Generate.lines fpred) = n /\
    length (Generate.lines fref) = n.
Proof.
  intros n files'.
  set (rows := zip predictions (zip references test_dataset)).
  assert (Hp : map (fun row : string * (string * Row) => fst row) rows
               = take n predictions).
  { change (rows.*1 = take n predictions). unfold rows.
    rewrite fst_zip_take, length_zip. apply take_eq_min. unfold n. lia. }
  assert (Hr : map (fun row : string * (string * Row) => fst (snd row)) rows
               = take n references).
  { transitivity ((rows.*2).*1); [now rewrite <- list_fmap_compose|].
    unfold rows. rewrite snd_zip_take, fmap_take, fst_zip_take, take_take.
    apply take_eq_min. unfold n. lia. }
  assert (Hlines : forall texts : list string,
            Generate.lines (join (map text_line texts))
            = map (replace_char newline " ") texts).
  { intros texts. unfold text_line.
    rewrite <- (map_map (replace_char newline " ")
                  (fun t => t +:+ String newline EmptyString)).
    apply lines_of_joined. apply Forall_forall. intros t Ht.
    apply list_elem_of_fmap in Ht as (t0 & -> & _).
    apply replace_char_free. discriminate. }
  exists (join (map (fun row => text_line (fst row)) rows)),
         (join (map (fun row => text_line (fst (snd row))) rows)).
  assert (Hfp : Generate.lines (join (map (fun row => text_line (fst row)) rows))
                = map (replace_char newline " ") (take n predictions)).
  { rewrite <- Hp, <- Hlines, map_map. reflexivity. }
  assert (Hfr : Generate.lines
                  (join (map (fun row => text_line (fst (snd row))) rows))
                = map (replace_char newline " ") (take n references)).
  { rewrite <- Hr, <- Hlines, map_map. reflexivity. }
  split; [|split; [|split; [|split; [|split]]]].
  - unfold files', export_predictions. fold rows.
    rewrite lookup_insert_ne.
    + apply lookup_insert_eq.
    + intros H. apply String.app_inj in H. discriminate H.
  - unfold files', export_predictions. apply lookup_insert_eq.
  - exact Hfp.
  - exact Hfr.
  - rewrite Hfp, length_map, length_take. unfold n. lia.
  - rewrite Hfr, length_map, length_take. unfold n. lia.
Qed.

Example export_two_predictions :
  export_predictions "runs/ft"
    [ "xs.sort()"; "for x in xs:" +:+ String newline "    print(x)"; "extra" ]
    [ "sorted(xs)"; "print(*xs)" ]
    [ tt; tt; tt ] ∅
  !! "runs/ft/predictions.txt"
  = Some ("xs.sort()" +:+ String newline "for x in xs:     print(x)"
            +:+ String newline EmptyString).
Proof. reflexivity. Qed.

End HarnessFacts.

(** ** More on [generate.py] *)

Module RunFacts.
Import Py StrFacts Generate GenerateFacts.

(** A loop stops with the exception of an element when no element before
    it can end otherwise. *)
Lemma for_each_raises {A B} (f : A -> result B) l x e :
  x ∈ l -> f x = Raise e ->
  (forall y, y ∈ l -> (exists b, f y = Ok b) \/ f y = Raise e) ->
  for_each f l = Raise e.
Proof.
  induction l as [|y l IH]; intros Hin Hx Hall; [inversion Hin|].
  simpl. destruct (Hall y) as [[b Hb]|Hy]; [left| |now rewrite Hy].
  rewrite Hb. simpl.
  apply elem_of_cons in Hin as [->|Hin]; [congruence|].
  rewrite IH; [reflexivity | assumption | assumption |].
  intros z Hz. apply Hall. now right.
Qed.

(** X8. [generate] gives one response per sample, in the order of the
    dataset: the response at place [i] is the model's answer to the input
    prepared from the sample at place [i]. *)
Theorem generate_one_response_per_sample L args dataset kb responses :
  generate L args dataset kb = Ok responses ->
  length responses = length dataset /\
  forall i s,
    dataset !! i = Some s ->
    exists example,
      prepare_input s kb args = Ok example /\
      responses !! i = Some (respond L example (max_new_tokens args)).
Proof.
  intros H. apply for_each_Ok in H. split.
  - symmetry. exact (Forall2_length _ _ _ H).
  - intros i s Hi.
    destruct (Forall2_lookup_l _ _ _ _ _ H Hi) as (r & Hr & Hs).
    destruct (prepare_input s kb args) as [example|]; [|discriminate].
    simpl in Hs. injection Hs as <-. now exists example.
Qed.

Lemma generate_one_response_per_sample_witness :
  length [ "print(1)" +:+ String newline "# done";
           "print(1)" +:+ String newline "# done" ] = length Demo.test.
Proof.
  apply (generate_one_response_per_sample Demo.libraries
           (configure Demo.cli_plain) Demo.test None).
  reflexivity.
Defined.

(** X9. Without RAG [generate] depends on the messages column alone: when
    every sample has it, every sample gets the answer to its messages
    without the final one, whatever its other columns are; when a sample
    lacks it, [generate] ends in the [KeyError] of [messages] and returns
    no response. *)
Theorem generate_without_rag L args dataset kb :
  use_rag (cli args) = false ->
  (forall chats,
     Forall2 (fun s chat => messages s = Some chat) dataset chats ->
     generate L args dataset kb
     = Ok (map (fun chat => respond L (drop_last 1 chat) (max_new_tokens args))
             chats)) /\
  (forall s,
     s ∈ dataset -> messages s = None ->
     generate L args dataset kb = Raise (KeyError "messages")).
Proof.
  intros Hrag. split.
  - intros chats Hchats. unfold generate. apply for_each_Ok.
    apply Forall2_fmap_r. eapply Forall2_impl; [exact Hchats|].
    intros s chat Hs. simpl in Hs.
    unfold prepare_input, get_messages. now rewrite Hrag, Hs.
  - intros s Hin Hnone. unfold generate.
    apply (for_each_raises _ dataset s); [exact Hin | |].
    + unfold prepare_input, get_messages. now rewrite Hrag, Hnone.
    + intros y _. unfold prepare_input, get_messages. rewrite Hrag.
      destruct (messages y); simpl; eauto.
Qed.

Lemma generate_without_rag_witness :
  generate Demo.libraries (configure Demo.cli_plain)
    [ Demo.row "sum of a list xs" "sum(xs)";
      {| columns := ∅; messages := None |} ] None
  = Raise (KeyError "messages").
Proof.
  refine (proj2 (generate_without_rag Demo.libraries
                   (configure Demo.cli_plain) _ None eq_refl)
            {| columns := ∅; messages := None |} _ eq_refl).
  right. left.
Defined.

(** X10. With RAG and an index, one sample without the instruction column
    makes the whole of [generate] end in the [KeyError] of that column:
    no response is returned.  The dataset has the messages column. *)
Theorem generate_rag_missing_instruction L args dataset store s :
  use_rag (cli args) = true ->
  (forall y, y ∈ dataset -> is_Some (messages y)) ->
  s ∈ dataset ->
  columns s !! instruction_field args = None ->
  generate L args dataset (Some store)
  = Raise (KeyError (instruction_field args)).
Proof.
  intros Hrag Hmsgs Hin Hnone. unfold generate.
  apply (for_each_raises _ dataset s); [exact Hin | |].
  - unfold prepare_input, getitem. now rewrite Hrag, Hnone.
  - intros y Hy. unfold prepare_input, getitem, get_messages. rewrite Hrag.
    destruct (Hmsgs y Hy) as [chat ->].
    destruct (columns y !! instruction_field args); simpl; eauto.
Qed.

Lemma generate_rag_missing_instruction_witness :
  generate Demo.libraries (configure Demo.cli_rag)
    (Demo.test ++ [Demo.apps_row]) (Some (Demo.store_of []))
  = Raise (KeyError "nl").
Proof.
  apply (generate_rag_missing_instruction Demo.libraries
           (configure Demo.cli_rag) (Demo.test ++ [Demo.apps_row])
           (Demo.store_of []) Demo.apps_row).
  - reflexivity.
  - intros y Hy.
    repeat (apply elem_of_cons in Hy as [->|Hy]; [now eexists|]).
    inversion Hy.
  - apply elem_of_app. right. left.
  - reflexivity.
Defined.

Lemma drop_last_app {A} (l1 l2 : list A) :
  l2 <> [] -> drop_last 1 (l1 ++ l2) = l1 ++ drop_last 1 l2.
Proof.
  intros Hne. unfold drop_last. rewrite List.length_app.
  destruct l2 as [|x l2]; [contradiction|]. simpl length.
  replace (length l1 + S (length l2) - 1)%nat
    with (length l1 + length l2)%nat by lia.
  rewrite take_app_add. do 2 f_equal. lia.
Qed.

(** X11. The ICL prompt and the cut of the final message together: a sample
    with messages is sent as the ICL messages followed by its own without
    the final one; for a sample whose list of messages is empty the cut
    falls on the ICL messages, whose final answer is lost. *)
Theorem icl_prompt_then_prepare_input (chat_icl : list message) s chat kb args :
  use_rag (cli args) = false ->
  messages s = Some chat ->
  exists s',
    add_icl_prompt chat_icl s = Ok s' /\
    (chat <> [] ->
     prepare_input s' kb args = Ok (chat_icl ++ drop_last 1 chat)) /\
    (chat = [] ->
     prepare_input s' kb args = Ok (drop_last 1 chat_icl)).
Proof.
  intros Hrag Hchat.
  exists {| columns := columns s; messages := Some (chat_icl ++ chat) |}.
  split; [apply add_icl_prompt_Ok; now exists chat|].
  unfold prepare_input, get_messages. rewrite Hrag. simpl. split.
  - intros Hne. now rewrite drop_last_app.
  - intros ->. now rewrite app_nil_r.
Qed.

Lemma icl_prompt_then_prepare_input_witness :
  exists s',
    add_icl_prompt [ user_message (JString "length of a list xs");
                     assistant_message (JString "len(xs)") ]
      (Demo.row "sum of a list xs" "sum(xs)") = Ok s' /\
    prepare_input s' None (configure Demo.cli_icl)
    = Ok [ user_message (JString "length of a list xs");
           assistant_message (JString "len(xs)");
           user_message (JString "sum of a list xs") ].
Proof.
  destruct (icl_prompt_then_prepare_input
              [ user_message (JString "length of a list xs");
                assistant_message (JString "len(xs)") ]
              (Demo.row "sum of a list xs" "sum(xs)") _
              None (configure Demo.cli_icl) eq_refl eq_refl)
    as (s' & Hadd & Hne & _).
  exists s'. split; [exact Hadd|]. apply Hne. discriminate.
Defined.

Lemma dict_get_set_eq key v d : dict_get key (dict_set key v d) = Some v.
Proof.
  induction d as [|[k w] d IH]; simpl.
  - now rewrite String.eqb_refl.
  - destruct (String.eqb k key) eqn:E; simpl; now rewrite E.
Qed.

Lemma dict_get_set_ne key key' v d :
  key <> key' -> dict_get key' (dict_set key v d) = dict_get key' d.
Proof.
  intros Hne. induction d as [|[k w] d IH]; simpl.
  - destruct (String.eqb_spec key key'); [contradiction | reflexivity].
  - destruct (String.eqb_spec k key) as [->|Hk]; simpl.
    + destruct (String.eqb_spec key key'); [contradiction | reflexivity].
    + now rewrite IH.
Qed.

(** X12. The dictionary [main] writes as metrics: its three measurement keys
    hold the measurements, also when the metrics already had such keys,
    and every other key holds what the metrics held. *)
Theorem final_metrics_entries (metrics : list (string * json)) m :
  dict_get "init_gpu_memory" (final_metrics metrics m)
  = Some (JString (init_gpu_memory m +:+ " MB")) /\
  dict_get "peak_gpu_memory" (final_metrics metrics m)
  = Some (JString (peak_gpu_memory m +:+ " MB")) /\
  dict_get "total_execution_time" (final_metrics metrics m)
  = Some (JString (total_execution_time m +:+ " seconds")) /\
  (forall key,
     key <> "init_gpu_memory" -> key <> "peak_gpu_memory" ->
     key <> "total_execution_time" ->
     dict_get key (final_metrics metrics m) = dict_get key metrics).
Proof.
  unfold final_metrics. repeat split.
  - rewrite !dict_get_set_ne by discriminate. apply dict_get_set_eq.
  - rewrite dict_get_set_ne by discriminate. apply dict_get_set_eq.
  - apply dict_get_set_eq.
  - intros key H1 H2 H3.
    rewrite !dict_get_set_ne by (now apply not_eq_sym). reflexivity.
Qed.

(** X13. The metrics of a dataset other than apps rest on one lookup of
    the reference column in the dataset: with its values they are the
    three scores, exact match, chrF and chrF with a word order of 2, each
    reference in a list of its own for chrF; the error of the lookup, for
    a dataset without the column, is the error of [compute_metrics]. *)
Theorem compute_metrics_reference_column L args responses dataset :
  dataset_name args <> "apps" ->
  (forall references,
     column L dataset (reference_field args) = Ok references ->
     compute_metrics L args responses dataset
     = Ok [ ("em", em_compute L responses references);
            ("chrf", chrf_compute L responses
                       (map (fun ref => [ref]) references) None);
            ("chrf2", chrf_compute L responses
                        (map (fun ref => [ref]) references) (Some 2)) ]) /\
  (forall e,
     column L dataset (reference_field args) = Raise e ->
     compute_metrics L args responses dataset = Raise e).
Proof.
  intros Hname. split.
  - intros references H. now apply compute_metrics_scores.
  - intros e He. unfold compute_metrics.
    destruct (String.eqb_spec (dataset_name args) "apps") as [|_];
      [contradiction|].
    now rewrite He.
Qed.

Lemma compute_metrics_reference_column_witness :
  compute_metrics Demo.libraries (configure Demo.cli_plain)
    ["sum(xs)"; "xs[:]"] Demo.test
  = Ok [ ("em", em_compute Demo.libraries ["sum(xs)"; "xs[:]"]
                  ["sum(xs)"; "xs[:]"]);
         ("chrf", chrf_compute Demo.libraries ["sum(xs)"; "xs[:]"]
                    [["sum(xs)"]; ["xs[:]"]] None);
         ("chrf2", chrf_compute Demo.libraries ["sum(xs)"; "xs[:]"]
                     [["sum(xs)"]; ["xs[:]"]] (Some 2)) ].
Proof.
  refine (proj1 (compute_metrics_reference_column Demo.libraries
                   (configure Demo.cli_plain) ["sum(xs)"; "xs[:]"] Demo.test _)
            ["sum(xs)"; "xs[:]"] eq_refl).
  discriminate.
Defined.

(** X14. A run with both ICL and RAG set stops at its first test sample, when
    that sample has the instruction column, with the error of a method
    looked up on [None]: [main] ends there and no file is written.  The
    test split has the messages column. *)
Theorem main_with_icl_and_rag_fails L (a : CliArgs) train s test m
    (files : gmap string string) chat_icl query :
  use_icl a = true -> use_rag a = true ->
  build_chat_icl L (configure a) train = Ok chat_icl ->
  (forall y, y ∈ s :: test -> is_Some (messages y)) ->
  columns s !! instruction_field (configure a) = Some query ->
  main L a train (s :: test) m files = Raise AttributeError.
Proof.
  intros Hicl Hrag Hbuild Hmsgs Hq.
  unfold main, prepare_run. rewrite cli_configure, Hicl, Hbuild. simpl.
  destruct (Hmsgs s ltac:(left)) as [chat Hchat].
  rewrite (proj2 (add_icl_prompt_Ok chat_icl s _)
             (ex_intro _ chat (conj Hchat eq_refl))).
  simpl.
  destruct (for_each_succeeds (add_icl_prompt chat_icl) test) as [rest ->].
  { intros y Hy. destruct (Hmsgs y ltac:(now right)) as [c Hc].
    eexists. apply add_icl_prompt_Ok. now exists c. }
  simpl. unfold tracked_generate, generate. simpl.
  unfold prepare_input at 1. rewrite cli_configure, Hrag. simpl.
  now rewrite (proj2 (getitem_Ok _ _ _) Hq).
Qed.

Lemma main_with_icl_and_rag_fails_witness :
  main Demo.libraries Demo.cli_icl_rag Demo.train Demo.test
    Demo.measurements ∅ = Raise AttributeError.
Proof.
  apply (main_with_icl_and_rag_fails Demo.libraries Demo.cli_icl_rag
           Demo.train (Demo.row "sum of a list xs" "sum(xs)")
           [Demo.row "copy a list xs" "xs[:]"] Demo.measurements ∅
           [ user_message (JString "length of a list xs");
             assistant_message (JString "len(xs)") ]
           "sum of a list xs"); try reflexivity.
  intros y Hy.
  repeat (apply elem_of_cons in Hy as [->|Hy]; [now eexists|]).
  inversion Hy.
Defined.

Lemma add_icl_prompt_nil s :
  is_Some (messages s) -> add_icl_prompt [] s = Ok s.
Proof.
  intros [chat Hchat]. apply add_icl_prompt_Ok. exists chat.
  split; [exact Hchat|]. destruct s as [cols msgs]. simpl in *. now subst.
Qed.

(** X15. With ICL set and no example asked for (a count of zero, or a
    negative one, whose range is empty): a negative seed is refused by the
    shuffle of a training split that has rows, and [main] ends in its
    [ValueError]; with any other seed, and
    a test split that has the messages column, nothing is put before the
    messages and the run goes on with the test split as it is. *)
Theorem icl_without_examples L (args : Args) train test :
  use_icl (cli args) = true ->
  num_icl_examples (cli args) <= 0 ->
  (train <> [] -> icl_seed (cli args) < 0 ->
   prepare_run L args train test = Raise ValueError) /\
  (0 <= icl_seed (cli args) ->
   (forall s, s ∈ test -> is_Some (messages s)) ->
   prepare_run L args train test = Ok (test, None)).
Proof.
  intros Hicl Hn. unfold prepare_run, build_chat_icl, dataset_shuffle.
  rewrite Hicl. split.
  - intros Htrain Hseed. destruct train as [|row train]; [contradiction|].
    destruct (Z.ltb_spec (icl_seed (cli args)) 0) as [_|]; [reflexivity | lia].
  - intros Hseed Hmsgs.
    assert (Hchat : (letM shuffled :=
                       match train with
                       | [] => Ok []
                       | _ :: _ =>
                           if icl_seed (cli args) <? 0 then Raise ValueError
                           else Ok (shuffle L (icl_seed (cli args)) train)
                       end in
                     letM examples :=
                       select_range (num_icl_examples (cli args)) shuffled in
                     letM pairs := for_each (chat_exemple L args) examples in
                     Ok (concat pairs)) = Ok []).
    { destruct train as [|row train]; [reflexivity|].
      destruct (Z.ltb_spec (icl_seed (cli args)) 0) as [|_]; [lia|]. simpl.
      rewrite select_range_take by lia.
      now replace (Z.to_nat (num_icl_examples (cli args))) with 0%nat by lia. }
    rewrite Hchat. simpl.
    assert (Hmap : for_each (add_icl_prompt []) test = Ok test).
    { clear -Hmsgs. induction test as [|s test IH]; [reflexivity|].
      simpl. rewrite add_icl_prompt_nil by (apply Hmsgs; left). simpl.
      rewrite IH; [reflexivity|]. intros y Hy. apply Hmsgs. now right. }
    now rewrite Hmap.
Qed.

Lemma icl_without_examples_witness :
  prepare_run Demo.libraries
    (configure
       {| model_name_or_path := "bigcode/starcoder";
          peft_checkpoint_path := None;
          dataset_name_or_path := "datasets/conala";
          temperature := "0.2";
          use_icl := true; icl_seed := 42; num_icl_examples := 0;
          use_rag := false; rag_top_k := 1 |})
    Demo.train Demo.test
  = Ok (Demo.test, None).
Proof.
  refine (proj2 (icl_without_examples Demo.libraries
           (configure
              {| model_name_or_path := "bigcode/starcoder";
                 peft_checkpoint_path := None;
                 dataset_name_or_path := "datasets/conala";
                 temperature := "0.2";
                 use_icl := true; icl_seed := 42; num_icl_examples := 0;
                 use_rag := false; rag_top_k := 1 |})
           Demo.train Demo.test eq_refl _) _ _).
  - discriminate.
  - discriminate.
  - intros s Hs.
    repeat (apply elem_of_cons in Hs as [->|Hs]; [now eexists|]).
    inversion Hs.
Defined.

End RunFacts.

(** ** The names and the paths of [main] *)

Module PathFacts.
Import Py StrFacts Generate GenerateFacts.

Lemma str_in_char_cons sep c s :
  str_in (String sep EmptyString) (String c s)
  = Ascii.eqb sep c || str_in (String sep EmptyString) s.
Proof. rewrite str_in_unfold. simpl. now destruct (Ascii.eqb sep c). Qed.

Lemma str_in_char_app sep s t :
  str_in (String sep EmptyString) (s +:+ t)
  = str_in (String sep EmptyString) s || str_in (String sep EmptyString) t.
Proof.
  induction s as [|c s IH]; [reflexivity|].
  rewrite str_app_cons, !str_in_char_cons, IH. apply orb_assoc.
Qed.

Lemma split_on_not_nil sep cur s : split_on sep cur s <> [].
Proof.
  revert cur. induction s as [|c s IH]; intros cur; simpl; [discriminate|].
  destruct (Ascii.eqb c sep); [discriminate | apply IH].
Qed.

Lemma last_skip {A} (x : A) l d : l <> [] -> List.last (x :: l) d = List.last l d.
Proof. now destruct l. Qed.

(** Without the separator there is one piece, the text. *)
Lemma split_on_free sep cur s :
  str_in (String sep EmptyString) s = false ->
  split_on sep cur s = [cur +:+ s].
Proof.
  revert cur. induction s as [|c s IH]; intros cur H.
  - simpl. now rewrite str_app_nil_r.
  - rewrite str_in_char_cons in H. apply orb_false_iff in H as [Hc Hs].
    simpl. rewrite Ascii.eqb_sym, Hc, IH by exact Hs.
    now rewrite str_app_assoc.
Qed.

(** The last piece is what follows the last separator. *)
Lemma split_on_last sep cur dir name :
  str_in (String sep EmptyString) name = false ->
  List.last (split_on sep cur (dir +:+ String sep name)) EmptyString = name.
Proof.
  intros Hname. revert cur. induction dir as [|c dir IH]; intros cur.
  - rewrite str_app_nil_l. simpl. rewrite Ascii.eqb_refl.
    now rewrite split_on_free.
  - rewrite str_app_cons. simpl. destruct (Ascii.eqb c sep).
    + rewrite last_skip by apply split_on_not_nil. apply IH.
    + apply IH.
Qed.

(** No piece holds the separator. *)
Lemma split_on_last_free sep cur s :
  str_in (String sep EmptyString) cur = false ->
  str_in (String sep EmptyString)
    (List.last (split_on sep cur s) EmptyString) = false.
Proof.
  revert cur. induction s as [|c s IH]; intros cur Hcur; [exact Hcur|].
  simpl. destruct (Ascii.eqb c sep) eqn:Hc.
  - rewrite last_skip by apply split_on_not_nil. now apply IH.
  - apply IH. rewrite str_in_char_app, Hcur, str_in_char_cons.
    now rewrite Ascii.eqb_sym, Hc.
Qed.

Lemma dataset_name_configure a :
  dataset_name (configure a) = last_part (dataset_name_or_path a).
Proof.
  unfold configure.
  destruct (String.eqb _ "conala"); [reflexivity|].
  destruct (String.eqb _ "codealpaca"); reflexivity.
Qed.

Lemma model_name_configure a :
  model_name (configure a) = last_part (model_name_or_path a).
Proof.
  unfold configure.
  destruct (String.eqb _ "conala"); [reflexivity|].
  destruct (String.eqb _ "codealpaca"); reflexivity.
Qed.

Lemma last_part_basename dir name :
  ~ contains "/" name -> last_part (dir +:+ "/" +:+ name) = name.
Proof.
  intros H. unfold last_part.
  rewrite str_app_cons, str_app_nil_l.
  apply split_on_last. now apply str_in_false.
Qed.

(** X16. The names [main] derives are the last components of the two paths:
    what follows the last slash, the whole path when it has no slash, and
    never a text with a slash in it. *)
Theorem configure_names_are_last_components (a : CliArgs) :
  let args := configure a in
  (forall dir name,
     dataset_name_or_path a = dir +:+ "/" +:+ name ->
     ~ contains "/" name -> dataset_name args = name) /\
  (forall dir name,
     model_name_or_path a = dir +:+ "/" +:+ name ->
     ~ contains "/" name -> model_name args = name) /\
  (~ contains "/" (dataset_name_or_path a) ->
   dataset_name args = dataset_name_or_path a) /\
  (~ contains "/" (model_name_or_path a) ->
   model_name args = model_name_or_path a) /\
  ~ contains "/" (dataset_name args) /\
  ~ contains "/" (model_name args).
Proof.
  simpl. rewrite dataset_name_configure, model_name_configure.
  split; [|split; [|split; [|split; [|split]]]].
  - intros dir name -> H. now apply last_part_basename.
  - intros dir name -> H. now apply last_part_basename.
  - intros H. unfold last_part. rewrite split_on_free
      by (now apply str_in_false). reflexivity.
  - intros H. unfold last_part. rewrite split_on_free
      by (now apply str_in_false). reflexivity.
  - apply str_in_false. unfold last_part. now apply split_on_last_free.
  - apply str_in_false. unfold last_part. now apply split_on_last_free.
Qed.

(** X17. A dataset path that ends with a slash has an empty last component:
    the dataset name is empty and the settings are those of the final
    branch, whatever directory the path names. *)
Theorem configure_trailing_slash (a : CliArgs) dir :
  dataset_name_or_path a = dir +:+ "/" ->
  let args := configure a in
  dataset_name args = EmptyString /\
  max_new_tokens args = 1024 /\
  instruction_field args = "question" /\
  reference_field args = "solutions".
Proof.
  intros Hpath.
  assert (Hlast : last_part (dataset_name_or_path a) = EmptyString).
  { rewrite Hpath. rewrite <- (str_app_nil_r "/").
    apply last_part_basename. apply str_in_false. reflexivity. }
  unfold configure. rewrite Hlast. simpl. repeat split; reflexivity.
Qed.

Lemma configure_trailing_slash_witness :
  let args :=
    configure
      {| model_name_or_path := "bigcode/starcoder";
         peft_checkpoint_path := None;
         dataset_name_or_path := "datasets/conala/";
         temperature := "0.2";
         use_icl := false; icl_seed := 42; num_icl_examples := 3;
         use_rag := false; rag_top_k := 1 |} in
  dataset_name args = EmptyString /\
  max_new_tokens args = 1024 /\
  instruction_field args = "question" /\
  reference_field args = "solutions".
Proof.
  apply (configure_trailing_slash
           {| model_name_or_path := "bigcode/starcoder";
              peft_checkpoint_path := None;
              dataset_name_or_path := "datasets/conala/";
              temperature := "0.2";
              use_icl := false; icl_seed := 42; num_icl_examples := 3;
              use_rag := false; rag_top_k := 1 |}
           "datasets/conala").
  reflexivity.
Defined.

Lemma str_app_inj_r s s' t : s +:+ t = s' +:+ t -> s = s'.
Proof.
  intros H.
  assert (Hlen : String.length s = String.length s').
  { apply (f_equal String.length) in H. rewrite !str_length_app in H. lia. }
  destruct (str_app_split _ _ _ _ H ltac:(lia)) as (e & -> & He).
  rewrite str_length_app in Hlen.
  destruct e; [now rewrite str_app_nil_r | simpl in Hlen; lia].
Qed.

(** The suffix of the file names by the mode of the run. *)
Lemma file_suffix_by_mode args :
  let base := dataset_name args +:+ "_t" +:+ temperature (cli args) in
  file_suffix args =
  if use_icl (cli args) then
    base +:+ "_icl_n" +:+ str_int (num_icl_examples (cli args))
         +:+ "_s" +:+ str_int (icl_seed (cli args))
  else if use_rag (cli args) then
    base +:+ "_rag_k" +:+ str_int (rag_top_k (cli args))
  else base +:+ EmptyString.
Proof.
  unfold file_suffix. simpl.
  destruct (use_icl (cli args)); [now rewrite !str_app_assoc|].
  destruct (use_rag (cli args)); [now rewrite !str_app_assoc|].
  now rewrite str_app_nil_r.
Qed.

(** X18. A plain run, an ICL run and a RAG run on the same dataset, at the
    same temperature and with the same output directory do not write over
    each other's files: their metrics files differ and their responses
    files differ. *)
Theorem run_modes_have_their_own_files (plain icl rag : Args) :
  dataset_name icl = dataset_name plain ->
  dataset_name rag = dataset_name plain ->
  temperature (cli icl) = temperature (cli plain) ->
  temperature (cli rag) = temperature (cli plain) ->
  use_icl (cli plain) = false -> use_rag (cli plain) = false ->
  use_icl (cli icl) = true ->
  use_icl (cli rag) = false -> use_rag (cli rag) = true ->
  output_dir icl = output_dir plain ->
  output_dir rag = output_dir plain ->
  metrics_path plain <> metrics_path icl /\
  metrics_path plain <> metrics_path rag /\
  metrics_path icl <> metrics_path rag /\
  responses_path plain <> responses_path icl /\
  responses_path plain <> responses_path rag /\
  responses_path icl <> responses_path rag.
Proof.
  intros Hd1 Hd2 Ht1 Ht2 Hp1 Hp2 Hi Hr1 Hr2 Ho1 Ho2.
  assert (Hs1 : file_suffix plain <> file_suffix icl).
  { rewrite !file_suffix_by_mode. simpl. rewrite Hp1, Hp2, Hi, Hd1, Ht1.
    rewrite !str_app_assoc. intros H.
    do 3 apply String.app_inj in H. discriminate H. }
  assert (Hs2 : file_suffix plain <> file_suffix rag).
  { rewrite !file_suffix_by_mode. simpl. rewrite Hp1, Hp2, Hr1, Hr2, Hd2, Ht2.
    rewrite !str_app_assoc. intros H.
    do 3 apply String.app_inj in H. discriminate H. }
  assert (Hs3 : file_suffix icl <> file_suffix rag).
  { rewrite !file_suffix_by_mode. simpl. rewrite Hi, Hr1, Hr2, Hd1, Hd2, Ht1, Ht2.
    rewrite !str_app_assoc. intros H.
    do 3 apply String.app_inj in H. discriminate H. }
  assert (Hpath : forall x y : Args,
            output_dir x = output_dir y ->
            file_suffix x <> file_suffix y ->
            metrics_path x <> metrics_path y /\
            responses_path x <> responses_path y).
  { intros x y Hdir Hne. unfold metrics_path, responses_path.
    rewrite Hdir.
    split; intros H; apply Hne; do 2 apply String.app_inj in H;
      now apply str_app_inj_r in H. }
  destruct (Hpath plain icl ltac:(congruence) Hs1),
           (Hpath plain rag ltac:(congruence) Hs2),
           (Hpath icl rag ltac:(congruence) Hs3).
  tauto.
Qed.

Lemma run_modes_have_their_own_files_witness :
  metrics_path (configure Demo.cli_plain)
  <> metrics_path (configure Demo.cli_rag) /\
  responses_path (configure Demo.cli_plain)
  <> responses_path (configure Demo.cli_rag).
Proof.
  destruct (run_modes_have_their_own_files
              (configure Demo.cli_plain)
              (configure
                 {| model_name_or_path := "bigcode/starcoder";
                    peft_checkpoint_path := None;
                    dataset_name_or_path := "datasets/conala";
                    temperature := "0.2";
                    use_icl := true; icl_seed := 42; num_icl_examples := 2;
                    use_rag := true; rag_top_k := 1 |})
              (configure Demo.cli_rag)
              eq_refl eq_refl eq_refl eq_refl eq_refl eq_refl eq_refl
              eq_refl eq_refl eq_refl eq_refl)
    as (_ & Hm & _ & _ & Hr & _).
  split; [exact Hm | exact Hr].
Defined.

End PathFacts.

(** ** More on [utils.py]: the loaders *)

Module LoaderFacts.
Import Py Utils.

(** X19. [load_conala_train_dataset] needs a test split to delete; what it
    returns has no test split, and every other split with the rows that
    have both an [nl] and a [cmd], in their order. *)
Theorem load_conala_train_dataset_splits
    (datasets : gmap string (list conala_row)) :
  (datasets !! "test" = None ->
   load_conala_train_dataset datasets = Raise (KeyError "test")) /\
  (is_Some (datasets !! "test") ->
   exists result,
     load_conala_train_dataset datasets = Ok result /\
     result !! "test" = None /\
     (forall split,
        split <> "test" ->
        result !! split
        = filter (fun x => nl x <> None /\ cmd x <> None)
            <$> datasets !! split) /\
     (forall split rows x,
        result !! split = Some rows -> x ∈ rows ->
        nl x <> None /\ cmd x <> None)).
Proof.
  unfold load_conala_train_dataset, delitem. rewrite !lookup_fmap. split.
  - intros ->. reflexivity.
  - intros [test ->]. simpl. eexists. split; [reflexivity|].
    assert (Hsplit : forall split : string,
              split <> "test" ->
              delete "test"
                (filter (fun x => cmd x <> None)
                   <$> (filter (fun x => nl x <> None) <$> datasets))
              !! split
              = filter (fun x => nl x <> None /\ cmd x <> None)
                  <$> datasets !! split).
    { intros split Hne. rewrite lookup_delete_ne by now apply not_eq_sym.
      rewrite !lookup_fmap. destruct (datasets !! split) as [rows|];
        [|reflexivity].
      simpl. f_equal. rewrite list_filter_filter.
      apply list_filter_iff. intros x. tauto. }
    split; [apply lookup_delete_eq|]. split; [exact Hsplit|].
    intros split rows x Hrows Hx.
    destruct (decide (split = "test")) as [->|Hne].
    + rewrite lookup_delete_eq in Hrows. discriminate.
    + rewrite (Hsplit split Hne) in Hrows.
      destruct (datasets !! split) as [rows0|]; [|discriminate].
      injection Hrows as <-. now apply list_elem_of_filter in Hx as [Hx _].
Qed.

Example load_conala_train_example :
  load_conala_train_dataset
    (<["train" := [ {| nl := Some "sort xs"; cmd := Some "xs.sort()";
                       conala_columns := ∅ |};
                    {| nl := None; cmd := Some "len(xs)";
                       conala_columns := ∅ |};
                    {| nl := Some "copy xs"; cmd := None;
                       conala_columns := ∅ |} ]]>
       (<["test" := [ {| nl := Some "sum xs"; cmd := Some "sum(xs)";
                         conala_columns := ∅ |} ]]> ∅))
  = Ok (<["train" := [ {| nl := Some "sort xs"; cmd := Some "xs.sort()";
                          conala_columns := ∅ |} ]]> ∅).
Proof. vm_compute. reflexivity. Qed.

(** X20. [load_codealpaca_train_dataset] needs the splits [valid] and [test]:
    it returns the split [valid] under the name [validation], no split
    [test] and no split [valid], and the other splits as they are. *)
Theorem load_codealpaca_train_dataset_splits {Row}
    (dataset : gmap string (list Row)) :
  (dataset !! "valid" = None ->
   load_codealpaca_train_dataset dataset = Raise (KeyError "valid")) /\
  (is_Some (dataset !! "valid") -> dataset !! "test" = None ->
   load_codealpaca_train_dataset dataset = Raise (KeyError "test")) /\
  (forall valid,
     dataset !! "valid" = Some valid -> is_Some (dataset !! "test") ->
     exists result,
       load_codealpaca_train_dataset dataset = Ok result /\
       result !! "validation" = Some valid /\
       result !! "test" = None /\
       result !! "valid" = None /\
       (forall split,
          split <> "validation" -> split <> "test" -> split <> "valid" ->
          result !! split = dataset !! split)).
Proof.
  unfold load_codealpaca_train_dataset, getitem, delitem.
  split; [|split].
  - intros ->. reflexivity.
  - intros [valid ->] Htest. simpl.
    rewrite lookup_insert_ne by discriminate. now rewrite Htest.
  - intros valid Hvalid [test Htest]. rewrite Hvalid. simpl.
    rewrite lookup_insert_ne by discriminate. rewrite Htest. simpl.
    rewrite lookup_delete_ne by discriminate.
    rewrite lookup_insert_ne by discriminate. rewrite Hvalid.
    eexists. split; [reflexivity|].
    split; [|split; [|split]].
    + rewrite lookup_delete_ne by discriminate.
      rewrite lookup_delete_ne by discriminate. apply lookup_insert_eq.
    + rewrite lookup_delete_ne by discriminate. apply lookup_delete_eq.
    + apply lookup_delete_eq.
    + intros split H1 H2 H3.
      rewrite !lookup_delete_ne by now apply not_eq_sym.
      apply lookup_insert_ne. now apply not_eq_sym.
Qed.

(** X21. The ODEX test examples are returned in the order of the split, a
    second filtering changes nothing, and a split without an intent of
    the CoNaLa training split is returned whole. *)
Theorem load_odex_test_dataset_order (dataset : list odex_row)
    (conala_nl : list (option string)) :
  sublist (load_odex_test_dataset dataset conala_nl) dataset /\
  load_odex_test_dataset (load_odex_test_dataset dataset conala_nl) conala_nl
  = load_odex_test_dataset dataset conala_nl /\
  ((forall example, example ∈ dataset -> intent example ∉ conala_nl) ->
   load_odex_test_dataset dataset conala_nl = dataset).
Proof.
  unfold load_odex_test_dataset. split; [apply sublist_filter|]. split.
  - rewrite list_filter_filter. apply list_filter_iff. intros x. tauto.
  - induction dataset as [|x dataset IH]; intros H; [reflexivity|].
    rewrite filter_cons_True by (apply H; left).
    f_equal. apply IH. intros y Hy. apply H. now right.
Qed.

End LoaderFacts.
